(** * StockBot: a shallow embedding of the ticker refresh loop, the
    recommendation source wrappers, the price lookup and the chat router.

    Source files embedded here:
    - [live_ticker.py]   ([update_live_prices])
    - [recommender.py]   ([get_stockrecommendations], [get_sellrecommendations])
    - [fetch_stock.py]   ([get_current_price])
    - [app.py]           (the chat block under [if user_input:])

    Conventions.
    - Python [str] values are byte strings; [lower]/[upper] act on the ASCII
      letters, [split] on the ASCII white space characters.
    - Python floats are idealised as rationals ([Q]); [random.random()] is a
      stream of rationals in the half-open interval from 0 to 1.
    - A Python exception is a [Raise e] result; [try/except Exception] is a
      match on the result. *)

From Stdlib Require Import Ascii String QArith Lia Lqa.
From stdpp Require Import gmap strings list fin_maps.

#[export] Set Warnings "-clear-no-such-hyp".

Open Scope string_scope.
Open Scope list_scope.

(** ** Python values, exceptions and string primitives *)

Module Py.

Inductive exn :=
| KeyError | TypeError | AttributeError | ZeroDivisionError
| ConnectionError | JSONDecodeError | RuntimeError.

Inductive result (A : Type) :=
| Ok (a : A)
| Raise (e : exn).
Arguments Ok {A} a.
Arguments Raise {A} e.

(** The line feed character, written [\n] in the source. *)
Definition nl : string :=
  String (Ascii.Ascii false true false true false false false false) "".

Definition lower_ascii (c : ascii) : ascii :=
  let n := nat_of_ascii c in
  if (65 <=? n)%nat && (n <=? 90)%nat then ascii_of_nat (n + 32) else c.

Definition upper_ascii (c : ascii) : ascii :=
  let n := nat_of_ascii c in
  if (97 <=? n)%nat && (n <=? 122)%nat then ascii_of_nat (n - 32) else c.

Fixpoint smap (f : ascii -> ascii) (s : string) : string :=
  match s with
  | EmptyString => EmptyString
  | String c r => String (f c) (smap f r)
  end.

(** [s.lower()] and [s.upper()] *)
Definition lower : string -> string := smap lower_ascii.
Definition upper : string -> string := smap upper_ascii.

(** [s.startswith(p)] *)
Fixpoint startswith (p s : string) : bool :=
  match p, s with
  | EmptyString, _ => true
  | String a p', String b s' => if Ascii.eqb a b then startswith p' s' else false
  | String _ _, EmptyString => false
  end.

(** [sub in s] *)
Fixpoint contains (sub s : string) : bool :=
  startswith sub s ||
  match s with
  | EmptyString => false
  | String _ r => contains sub r
  end.

(** [s.endswith(p)] *)
Definition endswith (p s : string) : bool :=
  startswith (String.rev p) (String.rev s).

(** [s.replace(old, new)] for a non-empty [old]: occurrences are found from
    the left and do not overlap. [skip] counts the characters of a match
    still to be dropped. *)
Fixpoint replace_go (old new : string) (skip : nat) (s : string) : string :=
  match s with
  | EmptyString => EmptyString
  | String c r =>
      match skip with
      | S k => replace_go old new k r
      | O =>
          if startswith old s
          then new +:+ replace_go old new (String.length old - 1) r
          else String c (replace_go old new 0 r)
      end
  end.

Definition replace (old new s : string) : string := replace_go old new 0 s.

(** White space of [str.split()] and [str.strip()] within ASCII:
    tab, line feed, vertical tab, form feed, carriage return,
    the four separators 28..31, and space. *)
Definition is_space (c : ascii) : bool :=
  let n := nat_of_ascii c in
  ((9 <=? n)%nat && (n <=? 13)%nat) || ((28 <=? n)%nat && (n <=? 32)%nat).

(** [s.split()]: maximal runs of non-space characters, in order.
    [cur] is the word being read, reversed. *)
Fixpoint split_go (cur : option string) (s : string) : list string :=
  match s with
  | EmptyString =>
      match cur with Some w => [String.rev w] | None => [] end
  | String c r =>
      if is_space c
      then match cur with
           | Some w => String.rev w :: split_go None r
           | None => split_go None r
           end
      else split_go (Some (String c (default EmptyString cur))) r
  end.

Definition split (s : string) : list string := split_go None s.

Fixpoint mem_ascii (c : ascii) (chars : string) : bool :=
  match chars with
  | EmptyString => false
  | String d r => Ascii.eqb c d || mem_ascii c r
  end.

Fixpoint lstrip (chars s : string) : string :=
  match s with
  | EmptyString => EmptyString
  | String c r => if mem_ascii c chars then lstrip chars r else s
  end.

(** [s.strip(chars)] *)
Definition strip (chars s : string) : string :=
  String.rev (lstrip chars (String.rev (lstrip chars s))).

(** [any(k in s for k in keys)] *)
Definition any_in (keys : list string) (s : string) : bool :=
  existsb (fun k => contains k s) keys.

(** [bool(s)] for a string *)
Definition nonempty (s : string) : bool :=
  match s with EmptyString => false | _ => true end.

(** [try/except] plumbing: sequencing of fallible steps. *)
#[export] Instance result_ret : MRet result := fun A a => Ok a.
#[export] Instance result_bind : MBind result := fun A B f r =>
  match r with
  | Ok a => f a
  | Raise e => Raise e
  end.

(** Values produced by [response.json()]. A [JObj] lists the items of the
    parsed dict (its keys are distinct). *)
#[warnings="-register-all"] Inductive Json :=
| JNull
| JBool (b : bool)
| JNum (q : Q)
| JStr (s : string)
| JList (l : list Json)
| JObj (items : list (string * Json)).

Fixpoint assoc (k : string) (items : list (string * Json)) : option Json :=
  match items with
  | [] => None
  | (k', v) :: r => if String.eqb k k' then Some v else assoc k r
  end.

(** [v[k]] for a string key [k]: only a dict can be indexed by a string. *)
Definition getitem (v : Json) (k : string) : result Json :=
  match v with
  | JObj items =>
      match assoc k items with
      | Some x => Ok x
      | None => Raise KeyError
      end
  | _ => Raise TypeError
  end.

Fixpoint chars (s : string) : list Json :=
  match s with
  | EmptyString => []
  | String c r => JStr (String c EmptyString) :: chars r
  end.

(** The sequence visited by [for i in v]: the elements of a list, the keys
    of a dict, the characters of a string; anything else is not iterable. *)
Definition iterate (v : Json) : result (list Json) :=
  match v with
  | JList l => Ok l
  | JObj items => Ok (map (fun kv => JStr (fst kv)) items)
  | JStr s => Ok (chars s)
  | _ => Raise TypeError
  end.

(** [bool(v)] *)
Definition truth (v : Json) : bool :=
  match v with
  | JNull => false
  | JBool b => b
  | JNum q => negb (Qeq_bool q 0)
  | JStr s => nonempty s
  | JList l => match l with [] => false | _ => true end
  | JObj items => match items with [] => false | _ => true end
  end.

(** The shape of the suffixes the code handles: a dot followed by two
    characters. *)
Definition dot : ascii := Ascii.Ascii false true true true false true false false.

Definition dotted (x y : ascii) : string :=
  String dot (String x (String y EmptyString)).

(** [s.strip()]: white space is removed at both ends. *)
Fixpoint lstrip_ws (s : string) : string :=
  match s with
  | EmptyString => EmptyString
  | String c r => if is_space c then lstrip_ws r else s
  end.

Definition strip_ws (s : string) : string :=
  String.rev (lstrip_ws (String.rev (lstrip_ws s))).

End Py.

(** ** recommender.py *)

Module Recommender.
Import Py.

(** What [requests.get(url, headers=headers)] hands back: the status code
    and the outcome of [response.json()]. *)
Record Response := {
  status_code : Z;
  json : result Json
}.

(** The outcome of one HTTP request: [Raise] is a network-level failure. *)
Definition Http : Type := result Response.

Definition recommendations_from (key : string) (http : Http) : result (list Json) :=
  response ← http;
  if (status_code response =? 200)%Z then
    body ← json response;
    trending_stocks ← getitem body "trending_stocks";
    lst ← getitem trending_stocks key;
    items ← iterate lst;
    mapM (fun i => getitem i "company_name") items
  else
    Ok [].

Definition get_stockrecommendations (http : Http) : result (list Json) :=
  recommendations_from "top_gainers" http.

Definition get_sellrecommendations (http : Http) : result (list Json) :=
  recommendations_from "top_losers" http.

(** The payload shape the two functions expect. *)
Definition company (name : string) : Json := JObj [("company_name", JStr name)].

Definition trending (gainers losers : list string) : Json :=
  JObj [("trending_stocks",
         JObj [("top_gainers", JList (map company gainers));
               ("top_losers", JList (map company losers))])].

Definition ok200 (body : Json) : Http :=
  Ok {| status_code := 200; json := Ok body |}.

End Recommender.

(** ** fetch_stock.py *)

Module FetchStock.
Import Py.

(** The fields of [yf.Ticker(symbol).info] read by the code; [None] is an
    absent key or a null value. *)
Record Info := {
  regularMarketPrice : option Q;
  currentPrice : option Q;
  previousClose : option Q
}.

(** [yf.Ticker(symbol).info]: the dict, or the exception the lookup raises. *)
Definition QuoteSource : Type := string -> result Info.

(** [bool(v)] for a number or [None] *)
Definition truthy (v : option Q) : bool :=
  match v with
  | Some q => negb (Qeq_bool q 0)
  | None => false
  end.

(** [a or b] *)
Definition py_or (a b : option Q) : option Q := if truthy a then a else b.

Inductive price_or_na :=
| Price (q : Q)
| NA.

(** The symbol after [if not symbol.endswith('.NS') and not
    symbol.endswith('.BO'): symbol = f"{symbol}.NS"]. *)
Definition with_suffix (symbol : string) : string :=
  if negb (endswith ".NS" symbol) && negb (endswith ".BO" symbol)
  then symbol +:+ ".NS" else symbol.

(** The body of the [try] block, up to the value of [price]. *)
Definition price_lookup (src : QuoteSource) (symbol : string) : result (option Q) :=
  let symbol := with_suffix symbol in
  info ← src symbol;
  let price := regularMarketPrice info in
  match price with
  | Some _ => Ok price
  | None =>
      let price := py_or (currentPrice info) (previousClose info) in
      match price with
      | Some _ => Ok price
      | None =>
          if endswith ".NS" symbol then
            let bse_symbol := replace ".NS" ".BO" symbol in
            bse_info ← src bse_symbol;
            Ok (py_or (regularMarketPrice bse_info) (currentPrice bse_info))
          else Ok None
      end
  end.

Definition get_current_price (src : QuoteSource) (symbol : string) : result price_or_na :=
  match price_lookup src symbol with
  | Ok (Some price) => Ok (Price price)
  | Ok None => Ok NA
  | Raise _ => Ok NA
  end.

(** A quote source that knows INFY on the BSE only, by [currentPrice]. *)
Definition bse_only : QuoteSource := fun symbol =>
  if String.eqb symbol "INFY.BO"
  then Ok {| regularMarketPrice := None;
             currentPrice := Some 1520.15%Q;
             previousClose := None |}
  else if String.eqb symbol "INFY.NS"
  then Ok {| regularMarketPrice := None;
             currentPrice := None;
             previousClose := None |}
  else Raise RuntimeError.

(** What [yf.download] gives back, as far as the code looks at it:
    [len(data)] and [data.columns]. *)
Record DataFrame := {
  rows : nat;
  columns : list string
}.

(** [data.empty]: one of the two axes has length zero. *)
Definition empty (data : DataFrame) : bool :=
  (rows data =? 0)%nat || match columns data with [] => true | _ => false end.

(** [yf.download(symbol, period=period)]: a frame, [None], or an exception. *)
Definition Download : Type := string -> string -> result (option DataFrame).

(** [data is not None and not data.empty] *)
Definition usable (data : option DataFrame) : bool :=
  match data with
  | Some d => negb (empty d)
  | None => false
  end.

(** The messages [get_stock_data] puts on the page. *)
Inductive Notice :=
| MissingColumn (col : string)
| Fetched (points : nat) (symbol : string)
| NoData (symbol : string)
| FetchError (e : exn).

Definition required_columns : list string :=
  ["Open"; "High"; "Low"; "Close"; "Volume"].

(** The part of [get_stock_data] after the BSE attempt: the column check. *)
Definition verify (data : option DataFrame) (symbol : string)
  : (option DataFrame * string) * list Notice :=
  match data with
  | Some d =>
      if negb (empty d) then
        match List.find (fun col => negb (existsb (String.eqb col) (columns d)))
                        required_columns with
        | Some col => ((None, symbol), [MissingColumn col])
        | None => ((Some d, symbol), [Fetched (rows d) symbol])
        end
      else ((None, symbol), [NoData symbol])
  | None => ((None, symbol), [NoData symbol])
  end.

(** The [try] block of [get_stock_data]. *)
Definition stock_data_lookup (download : Download) (symbol period : string)
  : result ((option DataFrame * string) * list Notice) :=
  data ← download symbol period;
  if negb (usable data) then
    if endswith ".NS" symbol then
      let bse_symbol := replace ".NS" ".BO" symbol in
      bse_data ← download bse_symbol period;
      if usable bse_data then Ok ((bse_data, bse_symbol), [])
      else Ok (verify bse_data symbol)
    else Ok (verify data symbol)
  else Ok (verify data symbol).

Definition get_stock_data (download : Download) (symbol period : string)
  : (option DataFrame * string) * list Notice :=
  let symbol := with_suffix symbol in
  match stock_data_lookup download symbol period with
  | Ok r => r
  | Raise e => ((None, symbol), [FetchError e])
  end.

(** The symbol handed to the TradingView widget. *)
Definition tv_symbol (verified_symbol : string) : string :=
  if endswith ".NS" verified_symbol
  then "NSE:" +:+ replace ".NS" "" verified_symbol
  else if endswith ".BO" verified_symbol
  then "BSE:" +:+ replace ".BO" "" verified_symbol
  else "NSE:" +:+ verified_symbol.

(** [embed_tradingview_chart]: [render] stands for the drawing of the
    heading, the price, the widget and the company information for a
    TradingView symbol, which may raise. *)
Definition embed_tradingview_chart (download : Download)
    (render : string -> result unit) (symbol : string) : bool :=
  match get_stock_data download symbol "1d" with
  | ((data, verified_symbol), _) =>
      if usable data then
        match render (tv_symbol verified_symbol) with
        | Ok _ => true
        | Raise _ => false
        end
      else false
  end.

Definition display_stock_chart (download : Download)
    (render : string -> result unit) (symbol period : string) : bool :=
  embed_tradingview_chart download render symbol.

(** A market where only the BSE has data for TCS, without a Volume column. *)
Definition bse_listing : Download := fun symbol _ =>
  if String.eqb symbol "TCS.BO"
  then Ok (Some {| rows := 22; columns := ["Open"; "High"; "Low"; "Close"] |})
  else if String.eqb symbol "TCS.NS"
  then Ok (Some {| rows := 0; columns := required_columns |})
  else Raise ConnectionError.

(** A market where the NSE has one day of data for INFY and nothing else
    can be reached. *)
Definition ohlcv : Download := fun symbol _ =>
  if String.eqb symbol "INFY.NS"
  then Ok (Some {| rows := 1; columns := required_columns |})
  else Raise ConnectionError.

End FetchStock.

(** ** live_ticker.py *)

Module LiveTicker.
Import Py FetchStock.

Open Scope Q_scope.

(** One entry of [st.session_state.live_prices]: [{'price': .., 'change': ..}] *)
Record Quote := {
  price : Q;
  change : Q
}.

(** Dicts are objects: [heap] holds every dict allocated so far, and
    [live_prices] is the reference stored in [st.session_state.live_prices].
    [rng] counts the calls of [random.random()] made so far. *)
Record Config := {
  heap : list (gmap string Quote);
  live_prices : nat;
  rng : nat
}.

(** What a reader of [st.session_state.live_prices] sees. *)
Definition snapshot (c : Config) : gmap string Quote :=
  default ∅ (heap c !! live_prices c).

Inductive Event :=
| CheckStop (stop : bool)
| NewDict
| SetItem (symbol_name : string)
| Publish
| Sleep (seconds : nat).

Definition Trace : Type := list (Event * Config).

(** The configuration a trace ends in, [c] for the empty trace. *)
Definition final (c : Config) (tr : Trace) : Config :=
  match last tr with
  | Some (_, c') => c'
  | None => c
  end.

Definition symbols : list string :=
  ["RELIANCE.NS"; "TCS.NS"; "HDFCBANK.NS"; "INFY.NS"; "TATAMOTORS.NS";
   "WIPRO.NS"; "BAJFINANCE.NS"].

(** [symbol.replace('.NS', '').replace('.BO', '')] *)
Definition clean (symbol : string) : string :=
  replace ".BO" "" (replace ".NS" "" symbol).

Section Loop.

(** The values returned by successive calls of [random.random()]. *)
Variable random : nat -> Q.

Definition placeholder (n : nat) : Quote :=
  {| price := 1000 + random n * 1000;
     change := (random (n + 1) - 0.5) * 2 |}.

(** The inner [try] block up to the dict entry it builds, with the number
    of random draws made when it ends. *)
Definition quote_for (yf : QuoteSource) (c : Config) (symbol : string)
  : result Quote * nat :=
  match yf symbol with
  | Raise e => (Raise e, rng c)
  | Ok info =>
      match regularMarketPrice info, previousClose info with
      | Some price, Some prev_close =>
          if Qeq_bool prev_close 0 then (Raise ZeroDivisionError, rng c)
          else (Ok {| price := price;
                      change := ((price - prev_close) / prev_close) * 100 |},
                rng c)
      | _, _ =>
          let symbol_clean := clean symbol in
          let fallback := 1000 + random (rng c) * 1000 in
          let existing_price :=
            match snapshot c !! symbol_clean with
            | Some q => price q
            | None => fallback
            end in
          let price := existing_price * (1 + (random (rng c + 1) - 0.5) * 0.01) in
          let change := (random (rng c + 2) - 0.5) * 2 in
          (Ok {| price := price; change := change |}, (rng c + 3)%nat)
      end
  end.

(** [prices[symbol_name] = q] on the dict at reference [prices]. *)
Definition setitem (prices : nat) (symbol_name : string) (q : Quote) (n : nat)
    (c : Config) : Config :=
  {| heap := alter (insert symbol_name q) prices (heap c);
     live_prices := live_prices c;
     rng := n |}.

(** One pass of the [for symbol in symbols] body: the inner [try] and its
    [except Exception] handler. *)
Definition store_quote (yf : QuoteSource) (prices : nat) (symbol : string)
    (c : Config) : Config :=
  match quote_for yf c symbol with
  | (Ok q, n) => setitem prices (clean symbol) q n c
  | (Raise _, n) => setitem prices (clean symbol) (placeholder n) (n + 2) c
  end.

Fixpoint for_symbols (yf : QuoteSource) (prices : nat) (syms : list string)
    (c : Config) : Trace :=
  match syms with
  | [] => []
  | symbol :: rest =>
      let c' := store_quote yf prices symbol c in
      (SetItem (clean symbol), c') :: for_symbols yf prices rest c'
  end.

(** [prices = {}] *)
Definition new_dict (c : Config) : Config :=
  {| heap := heap c ++ [∅]; live_prices := live_prices c; rng := rng c |}.

(** [st.session_state.live_prices = prices] *)
Definition publish (prices : nat) (c : Config) : Config :=
  {| heap := heap c; live_prices := prices; rng := rng c |}.

(** The outer [try] block. [fault] is the exception, if any, raised by the
    assignment to the session state. *)
Definition cycle_body (yf : QuoteSource) (fault : option exn) (c : Config)
  : Trace * result unit :=
  let prices := length (heap c) in
  let c0 := new_dict c in
  let tr := (NewDict, c0) :: for_symbols yf prices symbols c0 in
  let c1 := final c0 tr in
  match fault with
  | Some e => (tr, Raise e)
  | None =>
      let c2 := publish prices c1 in
      (tr ++ [(Publish, c2); (Sleep 60, c2)], Ok tt)
  end.

(** One iteration of the [while] body: the outer [try] and its handler. *)
Definition iteration (yf : QuoteSource) (fault : option exn) (c : Config)
  : Trace :=
  match cycle_body yf fault c with
  | (tr, Ok _) => tr
  | (tr, Raise _) => tr ++ [(Sleep 30, final c tr)]
  end.

(** The world around the loop, per cycle: the value of the stop flag read
    at the top, the quote source, and the fault of the publishing step. *)
Variable stop_ticker : nat -> bool.
Variable yf : nat -> QuoteSource.
Variable fault : nat -> option exn.

Inductive Status := Stopped | Running.

(** [update_live_prices], unrolled for at most [fuel] evaluations of the
    [while] condition, starting with cycle number [n]. *)
Fixpoint update_live_prices (fuel n : nat) (c : Config) : Trace * Status :=
  match fuel with
  | O => ([], Running)
  | S fuel' =>
      if stop_ticker n then ([(CheckStop true, c)], Stopped)
      else
        let tr := (CheckStop false, c) :: iteration (yf n) (fault n) c in
        let (rest, st) := update_live_prices fuel' (S n) (final c tr) in
        (tr ++ rest, st)
  end.

End Loop.

(** The session state at start-up: [live_prices] is an empty dict. *)
Definition init : Config := {| heap := [∅]; live_prices := 0; rng := 0 |}.

(** The seven names under which quotes are published. *)
Definition universe : gset string :=
  {[ "RELIANCE"; "TCS"; "HDFCBANK"; "INFY"; "TATAMOTORS"; "WIPRO"; "BAJFINANCE" ]}.

(** A quote drawn afresh: a price from 1000 up to 2000 and a change from
    -1 up to 1. *)
Definition fresh (q : Quote) : Prop :=
  (1000 <= price q /\ price q < 2000) /\ (-1 <= change q /\ change q < 1).

(** A quote synthesised for [name] over the snapshot [old]: the base price
    is the old price of [name] when there is one, else a value from 1000
    up to 2000; the price is the base moved by at most half a percent; the
    change lies from -1 up to 1. *)
Definition synthetic (old : gmap string Quote) (name : string) (q : Quote) : Prop :=
  exists base f,
    match old !! name with
    | Some o => base = price o
    | None => 1000 <= base /\ base < 2000
    end
    /\ (0.995 <= f /\ f < 1.005)
    /\ price q = base * f
    /\ (-1 <= change q /\ change q < 1).

(** What one cycle stores for [symbol], by the answer of the quote source. *)
Definition stored_by (yf : QuoteSource) (old : gmap string Quote)
    (symbol : string) (q : Quote) : Prop :=
  match yf symbol with
  | Raise _ => fresh q
  | Ok info =>
      match regularMarketPrice info, previousClose info with
      | Some p, Some pc =>
          if Qeq_bool pc 0 then fresh q
          else q = {| price := p; change := ((p - pc) / pc) * 100 |}
      | _, _ => synthetic old (clean symbol) q
      end
  end.

(** [c'] differs from [c] at most in the dict at reference [p] and in the
    random draws made. *)
Definition frame (p : nat) (c c' : Config) : Prop :=
  live_prices c' = live_prices c
  /\ length (heap c') = length (heap c)
  /\ forall l, l <> p -> heap c' !! l = heap c !! l.

(** The events of the loop as the control flow prescribes them: per cycle
    one look at the stop flag, then the new dict, one entry per symbol,
    and either the publication and the 60 second sleep or, after a fault,
    the 30 second sleep. *)
Fixpoint loop_events (stop_ticker : nat -> bool) (fault : nat -> option exn)
    (fuel n : nat) : list Event :=
  match fuel with
  | O => []
  | S fuel' =>
      if stop_ticker n then [CheckStop true]
      else
        CheckStop false :: NewDict :: map (fun s => SetItem (clean s)) symbols
        ++ match fault n with
           | None => [Publish; Sleep 60]
           | Some _ => [Sleep 30]
           end
        ++ loop_events stop_ticker fault fuel' (S n)
  end.

Definition is_check (ev : Event) : bool :=
  match ev with CheckStop _ => true | _ => false end.

Definition is_sleep (ev : Event) : bool :=
  match ev with Sleep _ => true | _ => false end.

(** The events at which the new snapshot is in place. *)
Definition published (ev : Event) : bool :=
  match ev with Publish | Sleep 60 => true | _ => false end.

(** Fixtures: a source that is down, a source that reports a zero price,
    and a snapshot holding two of the prices listed in [app.py]. *)
Definition down : QuoteSource := fun _ => Raise ConnectionError.

Definition zero_price : QuoteSource := fun _ =>
  Ok {| regularMarketPrice := Some 0;
        currentPrice := None;
        previousClose := Some 100 |}.

Definition no_data : QuoteSource := fun _ =>
  Ok {| regularMarketPrice := None; currentPrice := None; previousClose := None |}.

Definition half : nat -> Q := fun _ => 0.5.

(** The stop flag is set when cycle [k] begins. *)
Definition stop_at (k : nat) : nat -> bool := Nat.eqb k.

Definition shown_at_start : Config :=
  {| heap := [ {[ "RELIANCE" := {| price := 2830.45; change := 1.25 |};
                  "TCS" := {| price := 3450.20; change := -0.75 |} ]} ];
     live_prices := 0;
     rng := 0 |}.

Close Scope Q_scope.

(** The shared reference points to a dict that exists. *)
Definition wf (c : Config) : Prop := (live_prices c < length (heap c))%nat.

(** All prices of a snapshot are positive. *)
Definition positive (m : gmap string Quote) : Prop :=
  forall k q, m !! k = Some q -> (0 < price q)%Q.

(** The dict one cycle builds from [c], once its loop has ended. *)
Definition cycle_snapshot (random : nat -> Q) (yf : QuoteSource) (c : Config)
  : gmap string Quote :=
  default ∅
    (heap (final (new_dict c)
                 (for_symbols random yf (length (heap c)) symbols (new_dict c)))
     !! length (heap c)).

(** A source that fails for RELIANCE, has no data for TCS, reports a price
    of 107 against a close of 100 for INFY and is down for the rest. *)
Definition mixed : QuoteSource := fun symbol =>
  if String.eqb symbol "TCS.NS"
  then Ok {| regularMarketPrice := None; currentPrice := None;
             previousClose := None |}
  else if String.eqb symbol "INFY.NS"
  then Ok {| regularMarketPrice := Some 107%Q; currentPrice := None;
             previousClose := Some 100%Q |}
  else Raise ConnectionError.

End LiveTicker.

(** ** app.py: the chat block *)

Module App.
Import Py Recommender.

Record ChatEntry := {
  role : string;
  content : string
}.

(** What the chat block draws on the page. *)
Inductive Widget :=
| Markdown (text : string)
| Success (body : Json)
| Error (body : Json)
| Warning (text : string)
| Chart (symbol : string).

(** [chat_history] is [st.session_state.chat_history]; [screen] lists the
    widgets drawn so far; [requests] counts the HTTP requests sent to the
    recommendation source. *)
Record World := {
  chat_history : list ChatEntry;
  screen : list Widget;
  requests : nat
}.

(** A statement of the script: it changes the world and either yields a
    value or raises; the changes made before a raise stay. *)
Definition M (A : Type) : Type := World -> World * result A.

#[export] Instance M_ret : MRet M := fun A a w => (w, Ok a).
#[export] Instance M_bind : MBind M := fun A B f m w =>
  match m w with
  | (w', Ok a) => f a w'
  | (w', Raise e) => (w', Raise e)
  end.

Definition lift {A : Type} (r : result A) : M A := fun w => (w, r).

Definition draw (x : Widget) : M unit := fun w =>
  ({| chat_history := chat_history w;
      screen := screen w ++ [x];
      requests := requests w |}, Ok tt).

(** [st.session_state.chat_history.append(entry)] *)
Definition append_history (entry : ChatEntry) : M unit := fun w =>
  ({| chat_history := chat_history w ++ [entry];
      screen := screen w;
      requests := requests w |}, Ok tt).

Fixpoint for_each {A : Type} (f : A -> M unit) (l : list A) : M unit :=
  match l with
  | [] => mret tt
  | x :: r => _ ← f x; for_each f r
  end.

Inductive Intent :=
| ChartLookup
| BuyRecommendation
| SellRecommendation
| MarketSummary
| NewsQuery
| Fallback.

Definition buy_words : list string :=
  ["buy"; "recommend"; "top pick"; "top stocks"; "which stock"].
Definition sell_words : list string :=
  ["sell"; "dump"; "what to avoid"; "exit"].
Definition summary_words : list string :=
  ["market summary"; "today's trend"; "market today"; "what's the trend"].
Definition stoplist : list string :=
  ["CHART"; "PRICE"; "SHOW"; "ME"; "FOR"; "OF"; "THE"; "A"].

(** The conditions of the [if]/[elif] chain, in the order they are tested. *)
Definition classify (lower_input : string) : Intent :=
  if contains "chart" lower_input || contains "price" lower_input then ChartLookup
  else if any_in buy_words lower_input then BuyRecommendation
  else if any_in sell_words lower_input then SellRecommendation
  else if any_in summary_words lower_input then MarketSummary
  else if contains "news" lower_input || contains "latest" lower_input then NewsQuery
  else Fallback.

Definition no_picks : string :=
  "No top picks found at the moment. Try again later.".
Definition no_symbol : string :=
  "Couldn't detect a valid stock symbol. Try something like 'Show RELIANCE chart'.".
Definition no_news : string :=
  "Couldn't find specific news. Check the top news section above. 👆".
Definition help : string :=
  "I can help with stock charts, prices, top picks, and news. Try 'top picks', 'sell today', or 'market summary'.".
Definition summary_head : string := "📊 **Market Summary Today:**" +:+ nl +:+ nl.
Definition no_gainers : string := "No gainers reported." +:+ nl.
Definition no_losers : string := "No losers reported." +:+ nl.

(** [d.get(k, dflt)]: only a dict has [get]. *)
Definition dict_get (d : Json) (k : string) (dflt : Json) : result Json :=
  match d with
  | JObj items => Ok (default dflt (assoc k items))
  | _ => Raise AttributeError
  end.

(** [v.lower()]: only a string has [lower]. *)
Definition str_lower (v : Json) : result string :=
  match v with
  | JStr s => Ok (lower s)
  | _ => Raise AttributeError
  end.

Fixpoint concat_lines (l : list string) : string :=
  match l with
  | [] => EmptyString
  | x :: r => x +:+ concat_lines r
  end.

(** The collaborators of the router during one run of the script: whether
    [display_stock_chart] finds the symbol, the outcome of the k-th request
    to the recommendation source, the outcome of [fetch_news()], and the
    text an f-string gives for a value that is not a string. *)
Record Env := {
  display_stock_chart : string -> bool;
  http : nat -> Http;
  fetch_news : result (list Json);
  repr : Json -> string
}.

(** [w] with one more entry in the chat history. *)
Definition say (who text : string) (w : World) : World :=
  {| chat_history := chat_history w ++ [{| role := who; content := text |}];
     screen := screen w;
     requests := requests w |}.

Section Router.

Variable env : Env.

(** [f"{v}"] *)
Definition fmt (v : Json) : string :=
  match v with
  | JStr s => s
  | _ => repr env v
  end.

(** One call of a recommender function: it sends one request. *)
Definition call (f : Http -> result (list Json)) : M (list Json) := fun w =>
  ({| chat_history := chat_history w;
      screen := screen w;
      requests := S (requests w) |}, f (http env (requests w))).

Definition show_chart (symbol : string) : M bool :=
  _ ← draw (Chart symbol); mret (display_stock_chart env symbol).

(** The [for word in words] loop of the chart branch; the value is
    [response] when the loop ends. *)
Fixpoint chart_loop (words : list string) : M string :=
  match words with
  | [] => mret EmptyString
  | word :: rest =>
      if negb (existsb (String.eqb word) stoplist) then
        let potential_symbol := strip ".,?!" word in
        success ← show_chart potential_symbol;
        if success : bool then
          mret ("Here's the TradingView chart for " +:+ potential_symbol
                +:+ ". Check the left panel.")
        else chart_loop rest
      else chart_loop rest
  end.

Definition chart_branch (user_input : string) : M string :=
  let words := split (upper user_input) in
  response ← chart_loop words;
  if negb (nonempty response) then mret no_symbol else mret response.

(** The [else] of the [for] loop runs whenever the loop ends without
    [break], and this loop has no [break]. *)
Definition buy_branch : M string :=
  _ ← call get_stockrecommendations;
  _ ← draw (Markdown "### Today's Stock Picks");
  recommendations ← call get_stockrecommendations;
  _ ← for_each (fun i => draw (Success i)) recommendations;
  mret no_picks.

Definition sell_branch : M string :=
  recommendations ← call get_sellrecommendations;
  _ ← for_each (fun i => draw (Error i)) recommendations;
  mret EmptyString.

(** [f"- {rec['symbol']} – {rec['reason']}\n"] *)
Definition summary_line (rec : Json) : result string :=
  symbol ← getitem rec "symbol";
  reason ← getitem rec "reason";
  Ok ("- " +:+ fmt symbol +:+ " – " +:+ fmt reason +:+ nl).

Definition summary_half (title none : string) (recs : list Json) : result string :=
  match recs with
  | [] => Ok none
  | _ :: _ =>
      lines ← mapM summary_line recs;
      Ok (title +:+ concat_lines lines)
  end.

Definition summary_branch : M string :=
  buys ← call get_stockrecommendations;
  sells ← call get_sellrecommendations;
  gainers ← lift (summary_half ("**Top Gainers:**" +:+ nl) no_gainers buys);
  losers ← lift (summary_half ("**Top Losers:**" +:+ nl) no_losers sells);
  mret (summary_head +:+ gainers +:+ nl +:+ losers).

(** [f"- [{item['title']}]({item['url']})\n"] *)
Definition news_line (item : Json) : result string :=
  title ← getitem item "title";
  url ← getitem item "url";
  Ok ("- [" +:+ fmt title +:+ "](" +:+ fmt url +:+ ")" +:+ nl).

Definition news_lines (head : string) (items : list Json) : result string :=
  lines ← mapM news_line items;
  Ok (head +:+ concat_lines lines).

(** The filter of the news branch: both fields are read before the test. *)
Definition relevant (words : list string) (item : Json) : result bool :=
  t ← dict_get item "title" (JStr EmptyString);
  title ← str_lower t;
  d ← dict_get item "description" (JStr EmptyString);
  desc ← str_lower d;
  Ok (existsb (fun word => contains word title || contains word desc) words).

(** The filter of the fallback branch: the fields are read anew for each
    keyword, the description only when the title does not match. *)
Fixpoint matches (item : Json) (keywords : list string) : result bool :=
  match keywords with
  | [] => Ok false
  | kw :: rest =>
      t ← getitem item "title";
      title ← str_lower t;
      if contains kw title then Ok true
      else
        d ← dict_get item "description" (JStr EmptyString);
        desc ← str_lower d;
        if contains kw desc then Ok true else matches item rest
  end.

Fixpoint filterM (p : Json -> result bool) (items : list Json) : result (list Json) :=
  match items with
  | [] => Ok []
  | item :: rest =>
      keep ← p item;
      kept ← filterM p rest;
      Ok (if keep : bool then item :: kept else kept)
  end.

Definition news_branch (lower_input : string) : result string :=
  news_items ← fetch_news env;
  relevant_news ← filterM (relevant (split lower_input)) news_items;
  match relevant_news with
  | [] => Ok no_news
  | _ :: _ =>
      news_lines ("🗞️ Here's the latest news related to your query:" +:+ nl +:+ nl)
                 (take 5 relevant_news)
  end.

Definition fallback_branch (lower_input : string) : result string :=
  news_items ← fetch_news env;
  let keywords := split lower_input in
  matched ← filterM (fun item => matches item keywords) news_items;
  match matched with
  | [] => Ok help
  | _ :: _ =>
      news_lines ("Here’s what I found related to your query:" +:+ nl +:+ nl)
                 (take 3 matched)
  end.

(** The branch taken for an input, by the intent [classify] gives it. *)
Definition respond (user_input : string) : M string :=
  let lower_input := lower user_input in
  match classify lower_input with
  | ChartLookup => chart_branch user_input
  | BuyRecommendation => buy_branch
  | SellRecommendation => sell_branch
  | MarketSummary => summary_branch
  | NewsQuery => lift (news_branch lower_input)
  | Fallback => lift (fallback_branch lower_input)
  end.

(** The block under [with col2:], from the text input on. *)
Definition chat (user_input : string) : M unit :=
  if nonempty user_input then
    _ ← append_history {| role := "user"; content := user_input |};
    response ← respond user_input;
    append_history {| role := "assistant"; content := response |}
  else
    draw (Warning "No stock recommendations available today.").

End Router.

(** The session state at start-up. *)
Definition start : World := {| chat_history := []; screen := []; requests := 0 |}.

(** Successive runs of the script, one per submitted input. A run that
    raises is aborted; the session state it leaves is kept. *)
Fixpoint session (turns : list (Env * string)) (w : World) : World :=
  match turns with
  | [] => w
  | (e, user_input) :: rest => session rest (fst (chat e user_input w))
  end.

(** Every run of [turns] from [w] processes a non-empty input to its end. *)
Fixpoint all_complete (turns : list (Env * string)) (w : World) : Prop :=
  match turns with
  | [] => True
  | (e, user_input) :: rest =>
      nonempty user_input = true
      /\ snd (chat e user_input w) = Ok tt
      /\ all_complete rest (fst (chat e user_input w))
  end.

(** The history entries of a dialogue, in arrival order. *)
Fixpoint dialogue (inputs responses : list string) : list ChatEntry :=
  match inputs, responses with
  | u :: inputs', r :: responses' =>
      {| role := "user"; content := u |}
      :: {| role := "assistant"; content := r |}
      :: dialogue inputs' responses'
  | _, _ => []
  end.

(** A statement that leaves the chat history as it found it. *)
Definition keeps_history {A : Type} (m : M A) : Prop :=
  forall w, chat_history (fst (m w)) = chat_history w.

(** The priority order of the intents as a rule list: each intent with its
    trigger. [first_match] picks the first rule whose trigger holds, and
    [Fallback] when none does. *)
Definition rules : list (Intent * (string -> bool)) :=
  [ (ChartLookup, fun s => contains "chart" s || contains "price" s);
    (BuyRecommendation, any_in buy_words);
    (SellRecommendation, any_in sell_words);
    (MarketSummary, any_in summary_words);
    (NewsQuery, fun s => contains "news" s || contains "latest" s) ].

Fixpoint first_match (rs : list (Intent * (string -> bool))) (s : string) : Intent :=
  match rs with
  | [] => Fallback
  | (i, trigger) :: rest => if trigger s then i else first_match rest s
  end.

(** Some collaborators to run the chat block against. *)

(** A healthy recommendation source with two gainers and one loser. *)
Definition healthy : Env :=
  {| display_stock_chart := fun _ => false;
     http := fun _ => ok200 (trending ["Tata Steel"; "Infosys"] ["Wipro"]);
     fetch_news := Ok [];
     repr := fun _ => EmptyString |}.

(** A source that answers with an error status. *)
Definition unavailable : Env :=
  {| display_stock_chart := fun _ => false;
     http := fun _ => Ok {| status_code := 503; json := Raise JSONDecodeError |};
     fetch_news := Ok [];
     repr := fun _ => EmptyString |}.

(** A source that answers 200 with a body of another shape. *)
Definition malformed : Env :=
  {| display_stock_chart := fun _ => false;
     http := fun _ => ok200 (JObj [("message", JStr "quota exceeded")]);
     fetch_news := Ok [];
     repr := fun _ => EmptyString |}.

(** A source that cannot be reached. *)
Definition offline : Env :=
  {| display_stock_chart := fun _ => false;
     http := fun _ => Raise ConnectionError;
     fetch_news := Ok [];
     repr := fun _ => EmptyString |}.

(** [w] with more widgets on the page. *)
Definition drawn (ws : list Widget) (w : World) : World :=
  {| chat_history := chat_history w;
     screen := screen w ++ ws;
     requests := requests w |}.

(** [w] after [k] more requests to the recommendation source. *)
Definition asked (k : nat) (w : World) : World :=
  {| chat_history := chat_history w;
     screen := screen w;
     requests := k + requests w |}.

(** The candidate symbols of the chart branch: the words of the upper-cased
    input that are not on the stoplist, stripped of punctuation, in order. *)
Definition candidates (user_input : string) : list string :=
  map (strip ".,?!")
      (List.filter (fun word => negb (existsb (String.eqb word) stoplist))
                   (split (upper user_input))).

(** The candidates tried: up to and including the first that resolves. *)
Fixpoint attempts (ok : string -> bool) (l : list string) : list string :=
  match l with
  | [] => []
  | x :: r => if ok x then [x] else x :: attempts ok r
  end.

Definition chart_reply (symbol : string) : string :=
  "Here's the TradingView chart for " +:+ symbol +:+ ". Check the left panel.".

(** A source that answers the first request and is unreachable after. *)
Definition flaky : Env :=
  {| display_stock_chart := fun _ => false;
     http := fun k => match k with
                      | O => ok200 (trending ["Tata Steel"] [])
                      | S _ => Raise ConnectionError
                      end;
     fetch_news := Ok [];
     repr := fun _ => EmptyString |}.

(** News items that are not dicts. *)
Definition odd_news : Env :=
  {| display_stock_chart := fun _ => false;
     http := fun _ => Raise ConnectionError;
     fetch_news := Ok [JNull; JStr "headline"];
     repr := fun _ => EmptyString |}.

(** The router with the chart display of [fetch_stock.py] behind it. *)
Definition with_market (download : FetchStock.Download)
    (render : string -> result unit) (e : Env) : Env :=
  {| display_stock_chart := fun symbol =>
       FetchStock.display_stock_chart download render symbol "1mo";
     http := http e;
     fetch_news := fetch_news e;
     repr := repr e |}.

(** The router with the news of [news_fetcher.py] behind it. *)
Definition with_news (fetched : result Json) (e : Env) : Env :=
  {| display_stock_chart := display_stock_chart e;
     http := http e;
     fetch_news := (v ← fetched; iterate v);
     repr := repr e |}.

(** A source whose company names are dicts with a symbol and a reason, the
    shape the market summary reads. *)
Definition detailed : Env :=
  {| display_stock_chart := fun _ => false;
     http := fun _ =>
       ok200 (JObj [("trending_stocks",
                     JObj [("top_gainers", JList []);
                           ("top_losers",
                            JList [JObj [("company_name",
                                          JObj [("symbol", JStr "WIPRO");
                                                ("reason", JStr "weak results")])]])])]);
     fetch_news := Ok [];
     repr := fun _ => EmptyString |}.

(** The replies [respond] generates over the turns of a session, turn by
    turn; the empty string stands in for a turn that raises. *)
Fixpoint replies (turns : list (Env * string)) (w : World) : list string :=
  match turns with
  | [] => []
  | (e, user_input) :: rest =>
      match snd (respond e user_input (say "user" user_input w)) with
      | Ok response => response
      | Raise _ => EmptyString
      end :: replies rest (fst (chat e user_input w))
  end.

End App.

(** ** news_fetcher.py *)

Module NewsFetcher.
Import Py.

(** One [div.eachStory] block as the scraper reads it: the text of its
    first [h3], the [href] of its first [a] (absent anchor, anchor without
    [href], or the value), and the text of its first [p]. *)
Record Story := {
  h3 : option string;
  a_href : option (option string);
  p : option string
}.

Definition site : string := "https://economictimes.indiatimes.com".

(** The body of the [for story in stories] loop; [now] is the time stamp
    taken for this story. *)
Definition story_item (now : string) (story : Story) : result Json :=
  title ← match h3 story with
          | Some text => Ok (strip_ws text)
          | None => Raise AttributeError
          end;
  link ← match a_href story with
         | Some (Some href) => Ok (site +:+ href)
         | Some None => Raise KeyError
         | None => Raise TypeError
         end;
  let desc := match p story with
              | Some text => strip_ws text
              | None => EmptyString
              end in
  Ok (JObj [("title", JStr title); ("url", JStr link);
            ("description", JStr desc); ("publishedAt", JStr now)]).

(** The loop, story number [i] onwards; [clock i] is what
    [datetime.datetime.now()] gives, formatted, at story [i]. *)
Fixpoint scrape_stories (clock : nat -> string) (i : nat) (stories : list Story)
  : result (list Json) :=
  match stories with
  | [] => Ok []
  | story :: rest =>
      item ← story_item (clock i) story;
      items ← scrape_stories clock (S i) rest;
      Ok (item :: items)
  end.

(** [scrape_economic_times(count)]: [page] is the outcome of the request
    and of [find_all('div', class_='eachStory')] on what it returns;
    [count] is not negative. *)
Definition scrape_economic_times (page : result (list Story))
    (clock : nat -> string) (count : nat) : result (list Json) :=
  stories ← page;
  scrape_stories clock 0 (take count stories).

(** [fetch_news(query, count)]: [api] is the outcome of
    [newsapi.get_everything(...)]. Whatever goes wrong in the [try] block
    leads to the scraper. *)
Definition fetch_news (api : result Json) (page : result (list Story))
    (clock : nat -> string) (count : nat) : result Json :=
  match (news ← api; getitem news "articles") with
  | Ok articles => Ok articles
  | Raise _ =>
      items ← scrape_economic_times page clock count;
      Ok (JList items)
  end.

(** What a [for item in news_items] loop of the caller visits. *)
Definition news_items (fetched : result Json) : result (list Json) :=
  v ← fetched; iterate v.

Definition two_stories : list Story :=
  [ {| h3 := Some " Sensex ends higher ";
       a_href := Some (Some "/markets/stocks/news/a.cms");
       p := Some "Banks lead the rally" |};
    {| h3 := Some "Nifty flat"; a_href := Some (Some "/b.cms"); p := None |} ].

(** A story the scraper can turn into an item. *)
Definition complete (story : Story) : bool :=
  match h3 story, a_href story with
  | Some _, Some (Some _) => true
  | _, _ => false
  end.

(** An item as the scraper builds it. *)
Definition scraped (item : Json) : Prop :=
  exists title path desc stamp,
    item = JObj [("title", JStr title); ("url", JStr (site +:+ path));
                 ("description", JStr desc); ("publishedAt", JStr stamp)].

End NewsFetcher.

(** ** Start-up of a script run: app.py lines 12 to 40, live_ticker.py
    lines 61 to 67 *)

Module Startup.
Import Py.

(** The values kept in [st.session_state]. *)
Inductive Value :=
| VList (entries : list App.ChatEntry)
| VDict (prices : gmap string LiveTicker.Quote)
| VBool (b : bool).

(** [start_live_ticker()]: the state is [st.session_state] and the number
    of ticker threads started so far. *)
Definition start_live_ticker (s : gmap string Value * nat)
  : gmap string Value * nat :=
  match fst s !! "ticker_thread_started" with
  | None => (<["ticker_thread_started" := VBool true]> (fst s), S (snd s))
  | Some _ => s
  end.

(** [[] if key == 'chat_history' else {} if key == 'live_prices' else False] *)
Definition initial_value (key : string) : Value :=
  if String.eqb key "chat_history" then VList []
  else if String.eqb key "live_prices" then VDict ∅
  else VBool false.

Definition init_key (st : gmap string Value) (key : string) : gmap string Value :=
  match st !! key with
  | Some _ => st
  | None => <[key := initial_value key]> st
  end.

(** The loop [for key in ['chat_history', 'live_prices', 'stop_ticker']]. *)
Definition init_session (st : gmap string Value) : gmap string Value :=
  foldl init_key st ["chat_history"; "live_prices"; "stop_ticker"].

Definition default_prices : gmap string LiveTicker.Quote :=
  {[ "RELIANCE" := {| LiveTicker.price := 2830.45; LiveTicker.change := 1.25 |};
     "TCS" := {| LiveTicker.price := 3450.20; LiveTicker.change := -0.75 |};
     "HDFCBANK" := {| LiveTicker.price := 1640.30; LiveTicker.change := 0.50 |};
     "INFY" := {| LiveTicker.price := 1520.15; LiveTicker.change := -0.25 |};
     "TATAMOTORS" := {| LiveTicker.price := 780.10; LiveTicker.change := 2.15 |} ]}%Q.

(** The block [if 'live_prices' not in st.session_state: ...] that follows. *)
Definition install_defaults (st : gmap string Value) : gmap string Value :=
  match st !! "live_prices" with
  | None => <["live_prices" := VDict default_prices]> st
  | Some _ => st
  end.

(** The top of one run of app.py. *)
Definition prelude (s : gmap string Value * nat) : gmap string Value * nat :=
  let s' := start_live_ticker s in
  (install_defaults (init_session (fst s')), snd s').

End Startup.

(** * Properties *)

(** ** Sanity checks of the string primitives *)

Example lower_ex : Py.lower "Show me INFY chart" = "show me infy chart".
Proof. reflexivity. Qed.
Example split_ex : Py.split (Py.upper "show me  the buy chart ") = ["SHOW"; "ME"; "THE"; "BUY"; "CHART"].
Proof. reflexivity. Qed.
Example replace_ex : Py.replace ".NS" "" "RELIANCE.NS" = "RELIANCE".
Proof. reflexivity. Qed.
Example strip_ex : Py.strip ".,?!" "INFY?!" = "INFY".
Proof. reflexivity. Qed.
Example endswith_ex : Py.endswith ".NS" "TCS.NS" = true /\ Py.endswith ".NS" "TCS.BO" = false.
Proof. split; reflexivity. Qed.

(** ** recommender.py *)

Section RecommenderFacts.
Import Py Recommender.

Lemma mapM_company (names : list string) :
  mapM (fun i => getitem i "company_name") (map company names)
  = Ok (map JStr names).
Proof.
  induction names as [|n names IH]; [reflexivity|].
  cbn [map mapM]. rewrite IH. reflexivity.
Qed.

Lemma recommendations_not_200 key code body :
  code ≠ 200%Z ->
  recommendations_from key (Ok {| status_code := code; json := body |}) = Ok [].
Proof.
  intros Hne. unfold recommendations_from. cbn.
  destruct (Z.eqb_spec code 200) as [->|_]; [contradiction|reflexivity].
Qed.

(** C3, as stated, fails: a 200 response whose JSON lacks the
    [trending_stocks] key, or lacks the gainers/losers list, makes both
    functions raise [KeyError]; a network-level failure of the request
    leaves them as the exception it is; a body that is not JSON raises
    out of [response.json()]. None of these yields the empty list. *)
Lemma recommender_raises_on_failure :
  get_stockrecommendations (ok200 (JObj [])) = Raise KeyError
  /\ get_sellrecommendations (ok200 (JObj [])) = Raise KeyError
  /\ get_stockrecommendations (ok200 (JObj [("trending_stocks", JObj [])]))
     = Raise KeyError
  /\ get_sellrecommendations (Raise ConnectionError) = Raise ConnectionError
  /\ get_stockrecommendations
       (Ok {| status_code := 200; json := Raise JSONDecodeError |})
     = Raise JSONDecodeError.
Proof. repeat split; reflexivity. Qed.

(** C3, amended: a non-200 response yields the empty list from both
    functions, without an exception; a 200 response carrying the expected
    payload yields the company names of the gainers, respectively the
    losers, in order; a network-level failure, an unparsable body, a
    payload without the [trending_stocks] key and a payload whose
    [trending_stocks] dict lacks the [top_gainers], respectively
    [top_losers], key are raised to the caller. *)
Theorem recommender_outcomes
    (code : Z) (body : result Json) (gainers losers : list string)
    (e : exn) (items fields : list (string * Json)) :
  (code ≠ 200%Z ->
     get_stockrecommendations (Ok {| status_code := code; json := body |}) = Ok []
     /\ get_sellrecommendations (Ok {| status_code := code; json := body |}) = Ok [])
  /\ get_stockrecommendations (ok200 (trending gainers losers)) = Ok (map JStr gainers)
  /\ get_sellrecommendations (ok200 (trending gainers losers)) = Ok (map JStr losers)
  /\ get_stockrecommendations (Raise e) = Raise e
  /\ get_sellrecommendations (Raise e) = Raise e
  /\ get_stockrecommendations (Ok {| status_code := 200; json := Raise e |}) = Raise e
  /\ get_sellrecommendations (Ok {| status_code := 200; json := Raise e |}) = Raise e
  /\ (assoc "trending_stocks" items = None ->
        get_stockrecommendations (ok200 (JObj items)) = Raise KeyError
        /\ get_sellrecommendations (ok200 (JObj items)) = Raise KeyError)
  /\ (assoc "trending_stocks" items = Some (JObj fields) ->
        (assoc "top_gainers" fields = None ->
           get_stockrecommendations (ok200 (JObj items)) = Raise KeyError)
        /\ (assoc "top_losers" fields = None ->
              get_sellrecommendations (ok200 (JObj items)) = Raise KeyError)).
Proof.
  split; [|split; [|split; [|do 4 (split; [reflexivity|]); split]]].
  - intros Hne. split; apply recommendations_not_200; exact Hne.
  - unfold get_stockrecommendations, recommendations_from. cbn.
    apply mapM_company.
  - unfold get_sellrecommendations, recommendations_from. cbn.
    apply mapM_company.
  - intros Hmiss.
    unfold get_stockrecommendations, get_sellrecommendations,
      recommendations_from.
    cbn. rewrite Hmiss. split; reflexivity.
  - intros Hts.
    unfold get_stockrecommendations, get_sellrecommendations,
      recommendations_from.
    cbn. rewrite Hts. cbn. split; intros Hkey; rewrite Hkey; reflexivity.
Qed.

Lemma recommender_outcomes_witness :
  (get_stockrecommendations
     (Ok {| status_code := 503; json := Raise JSONDecodeError |}) = Ok []
   /\ get_sellrecommendations
        (Ok {| status_code := 503; json := Raise JSONDecodeError |}) = Ok [])
  /\ (get_stockrecommendations (ok200 (JObj [("status", JStr "error")])) = Raise KeyError
      /\ get_sellrecommendations (ok200 (JObj [("status", JStr "error")])) = Raise KeyError)
  /\ get_stockrecommendations
       (ok200 (JObj [("trending_stocks", JObj [("top_losers", JList [])])]))
     = Raise KeyError
  /\ get_sellrecommendations
       (ok200 (JObj [("trending_stocks", JObj [("top_gainers", JList [])])]))
     = Raise KeyError.
Proof.
  pose proof (recommender_outcomes 503 (Raise JSONDecodeError) ["Tata Steel"] []
                ConnectionError [("status", JStr "error")] []) as H.
  pose proof (recommender_outcomes 503 (Raise JSONDecodeError) ["Tata Steel"] []
                ConnectionError
                [("trending_stocks", JObj [("top_losers", JList [])])]
                [("top_losers", JList [])]) as Hg.
  pose proof (recommender_outcomes 503 (Raise JSONDecodeError) ["Tata Steel"] []
                ConnectionError
                [("trending_stocks", JObj [("top_gainers", JList [])])]
                [("top_gainers", JList [])]) as Hl.
  split; [|split; [|split]].
  - apply (proj1 H). lia.
  - apply (proj1 (proj2 (proj2 (proj2 (proj2 (proj2 (proj2 (proj2 H)))))))).
    reflexivity.
  - destruct Hg as (_ & _ & _ & _ & _ & _ & _ & _ & Hg).
    destruct (Hg eq_refl) as [Hg1 _]. apply Hg1. reflexivity.
  - destruct Hl as (_ & _ & _ & _ & _ & _ & _ & _ & Hl).
    destruct (Hl eq_refl) as [_ Hl2]. apply Hl2. reflexivity.
Defined.

End RecommenderFacts.

(** ** fetch_stock.py *)

Section FetchStockFacts.
Import Py FetchStock.

Lemma startswith_app (p s : string) : startswith p (p +:+ s) = true.
Proof.
  induction p as [|a p IH]; [reflexivity|].
  change (startswith (String a p) (String a p +:+ s))
    with (if Ascii.eqb a a then startswith p (p +:+ s) else false).
  rewrite Ascii.eqb_refl. exact IH.
Qed.

Lemma rev_app_app (a b acc : string) :
  String.rev_app (a +:+ b) acc = String.rev_app b (String.rev_app a acc).
Proof.
  revert acc. induction a as [|c a IH]; intros acc; [reflexivity|].
  cbn. apply IH.
Qed.

Lemma rev_app_acc (a b c : string) :
  String.rev_app a (b +:+ c) = String.rev_app a b +:+ c.
Proof.
  revert b. induction a as [|x a IH]; intros b; [reflexivity|].
  cbn. apply (IH (String x b)).
Qed.

(** A bare symbol gets the NSE suffix, and is then recognised as such. *)
Lemma endswith_app (p s : string) : endswith p (s +:+ p) = true.
Proof.
  unfold endswith, String.rev. rewrite rev_app_app.
  change (String.rev_app s EmptyString)
    with (EmptyString +:+ String.rev_app s EmptyString).
  rewrite rev_app_acc. apply startswith_app.
Qed.

Lemma with_suffix_bare (symbol : string) :
  endswith ".NS" symbol = false -> endswith ".BO" symbol = false ->
  with_suffix symbol = symbol +:+ ".NS"
  /\ endswith ".NS" (with_suffix symbol) = true.
Proof.
  intros H1 H2. unfold with_suffix. rewrite H1, H2. cbn [negb andb].
  split; [reflexivity|apply endswith_app].
Qed.

Lemma truthy_some (p : Q) : ~ (p == 0)%Q -> truthy (Some p) = true.
Proof.
  intros H. unfold truthy. destruct (Qeq_bool p 0) eqn:E; [|reflexivity].
  apply Qeq_bool_iff in E. contradiction.
Qed.

(** C10: [get_current_price] returns for every symbol and every behaviour
    of the quote source, never raising. With [s] the symbol looked up
    (the input, with the NSE suffix added when it carries none): the
    result is [regularMarketPrice] of [s] when present; else a non-zero
    [currentPrice]; else [previousClose] when present; else, when [s]
    carries the NSE suffix, a non-zero [regularMarketPrice] of the BSE
    symbol, else its [currentPrice]; and ['N/A'] when none of these gives a
    price or when a lookup raises. *)
Theorem get_current_price_total (src : QuoteSource) (symbol : string) :
  let s := with_suffix symbol in
  let bse := replace ".NS" ".BO" s in
  (exists v, get_current_price src symbol = Ok v)
  /\ (forall e, src s = Raise e -> get_current_price src symbol = Ok NA)
  /\ (forall info, src s = Ok info ->
      (forall p, regularMarketPrice info = Some p ->
         get_current_price src symbol = Ok (Price p))
      /\ (regularMarketPrice info = None ->
          (forall p, currentPrice info = Some p -> ~ (p == 0)%Q ->
             get_current_price src symbol = Ok (Price p))
          /\ (truthy (currentPrice info) = false ->
              (forall p, previousClose info = Some p ->
                 get_current_price src symbol = Ok (Price p))
              /\ (previousClose info = None ->
                  (endswith ".NS" s = false ->
                     get_current_price src symbol = Ok NA)
                  /\ (endswith ".NS" s = true ->
                      (forall e, src bse = Raise e ->
                         get_current_price src symbol = Ok NA)
                      /\ (forall b, src bse = Ok b ->
                          (forall p, regularMarketPrice b = Some p ->
                             ~ (p == 0)%Q ->
                             get_current_price src symbol = Ok (Price p))
                          /\ (truthy (regularMarketPrice b) = false ->
                              (forall p, currentPrice b = Some p ->
                                 get_current_price src symbol = Ok (Price p))
                              /\ (currentPrice b = None ->
                                  get_current_price src symbol = Ok NA)))))))).
Proof.
  intros s bse. split.
  { unfold get_current_price.
    destruct (price_lookup src symbol) as [[p|]|e]; eauto. }
  unfold get_current_price, price_lookup. fold s. fold bse. split.
  { intros e He. rewrite He. reflexivity. }
  intros info Hinfo. rewrite Hinfo. cbn [mbind result_bind]. split.
  { intros p Hp. rewrite Hp. reflexivity. }
  intros Hreg. rewrite Hreg. split.
  { intros p Hp Hnz. unfold py_or. rewrite Hp, (truthy_some p Hnz).
    reflexivity. }
  intros Hcur. unfold py_or. rewrite Hcur. split.
  { intros p Hp. rewrite Hp. reflexivity. }
  intros Hprev. rewrite Hprev. split.
  { intros Hns. rewrite Hns. reflexivity. }
  intros Hns. rewrite Hns. split.
  { intros e He. rewrite He. reflexivity. }
  intros b Hb. rewrite Hb. cbn [mbind result_bind]. split.
  { intros p Hp Hnz. rewrite Hp, (truthy_some p Hnz). reflexivity. }
  intros Hbreg. rewrite Hbreg. split.
  { intros p Hp. rewrite Hp. reflexivity. }
  intros Hp. rewrite Hp. reflexivity.
Qed.

Lemma get_current_price_total_witness :
  get_current_price bse_only "INFY" = Ok (Price 1520.15%Q)
  /\ get_current_price bse_only "TCS" = Ok NA.
Proof.
  split.
  - destruct (get_current_price_total bse_only "INFY") as (_ & _ & H).
    destruct (H _ eq_refl) as [_ H1].
    destruct (H1 eq_refl) as [_ H2].
    destruct (H2 eq_refl) as [_ H3].
    destruct (H3 eq_refl) as [_ H4].
    destruct (H4 eq_refl) as [_ H5].
    destruct (H5 _ eq_refl) as [_ H6].
    destruct (H6 eq_refl) as [H7 _].
    exact (H7 _ eq_refl).
  - destruct (get_current_price_total bse_only "TCS") as (_ & H & _).
    exact (H RuntimeError eq_refl).
Defined.

End FetchStockFacts.

(** ** app.py: the chat block *)

Section RouterFacts.
Import Py Recommender App.

Variable env : Env.

(** How [chat] is built around [respond]. *)
Lemma chat_unfold (user_input : string) (w : World) :
  nonempty user_input = true ->
  chat env user_input w =
    match respond env user_input (say "user" user_input w) with
    | (w', Ok response) => (say "assistant" response w', Ok tt)
    | (w', Raise e) => (w', Raise e)
    end.
Proof.
  intros Hne. unfold App.chat. rewrite Hne. reflexivity.
Qed.

(** C6: the intent is a function of the lower-cased input, and it is the
    first rule, in the order ChartLookup, BuyRecommendation,
    SellRecommendation, MarketSummary, NewsQuery, whose trigger holds,
    Fallback when none does. For the input "show me the buy chart", which
    contains both "buy" and "chart", the intent is ChartLookup: the only
    candidate symbol tried is BUY, the reply is the chart reply for BUY or
    the no-symbol reply, and no request goes to the recommendation source. *)
Theorem classify_first_match_wins :
  (forall s, classify s = first_match rules s)
  /\ map fst rules
     = [ChartLookup; BuyRecommendation; SellRecommendation; MarketSummary; NewsQuery]
  /\ any_in buy_words (lower "show me the buy chart") = true
  /\ classify (lower "show me the buy chart") = ChartLookup
  /\ forall w,
       chat env "show me the buy chart" w =
         ({| chat_history :=
               chat_history w ++
               [ {| role := "user"; content := "show me the buy chart" |};
                 {| role := "assistant";
                    content :=
                      if display_stock_chart env "BUY"
                      then "Here's the TradingView chart for BUY. Check the left panel."
                      else no_symbol |} ];
             screen := screen w ++ [Chart "BUY"];
             requests := requests w |}, Ok tt).
Proof.
  split; [|split; [reflexivity|split; [reflexivity|split; [reflexivity|]]]].
  - intros s. unfold classify, rules, first_match.
    repeat match goal with |- context [if ?b then _ else _] => destruct b end;
      reflexivity.
  - intros [h sc n]. rewrite chat_unfold by reflexivity.
    unfold App.respond.
    change (classify (lower "show me the buy chart")) with ChartLookup.
    cbv beta iota. unfold chart_branch.
    change (split (upper "show me the buy chart"))
      with ["SHOW"; "ME"; "THE"; "BUY"; "CHART"].
    unfold say. cbn.
    destruct (display_stock_chart env "BUY") eqn:E;
      cbv [mbind mret M_bind M_ret show_chart draw]; cbn; rewrite E;
      cbv -[app]; rewrite <- app_assoc; reflexivity.
Qed.

(** *** The statements of the script and the chat history *)

Ltac run_M :=
  cbv [mbind mret M_bind M_ret lift draw append_history call show_chart say].

Lemma keeps_ret {A : Type} (a : A) : keeps_history (mret a).
Proof. intros w. reflexivity. Qed.

Lemma keeps_lift {A : Type} (r : result A) : keeps_history (lift r).
Proof. intros w. reflexivity. Qed.

Lemma keeps_draw (x : Widget) : keeps_history (draw x).
Proof. intros w. reflexivity. Qed.

Lemma keeps_call (f : Http -> result (list Json)) : keeps_history (call env f).
Proof. intros w. reflexivity. Qed.

Lemma keeps_bind {A B : Type} (m : M A) (f : A -> M B) :
  keeps_history m -> (forall a, keeps_history (f a)) -> keeps_history (m ≫= f).
Proof.
  intros Hm Hf w. specialize (Hm w). cbv [mbind M_bind].
  destruct (m w) as [w' [a|e]]; cbn in *.
  - rewrite Hf. exact Hm.
  - exact Hm.
Qed.

Lemma keeps_for_each {A : Type} (f : A -> M unit) (l : list A) :
  (forall a, keeps_history (f a)) -> keeps_history (for_each f l).
Proof.
  intros Hf. induction l as [|x l IH]; cbn [for_each].
  - apply keeps_ret.
  - apply keeps_bind; [apply Hf|intros _; exact IH].
Qed.

Create HintDb history.
#[local] Hint Resolve keeps_ret keeps_lift keeps_draw keeps_call
  keeps_bind keeps_for_each : history.

Lemma keeps_chart_loop (words : list string) :
  keeps_history (chart_loop env words).
Proof.
  induction words as [|word rest IH]; cbn [chart_loop]; [apply keeps_ret|].
  destruct (negb (existsb (String.eqb word) stoplist)); [|exact IH].
  apply keeps_bind.
  - unfold show_chart. auto with history.
  - intros [|]; [apply keeps_ret|exact IH].
Qed.

(** No branch of the router touches the chat history. *)
Lemma keeps_respond (user_input : string) :
  keeps_history (respond env user_input).
Proof.
  unfold respond. destruct (classify (lower user_input)).
  - unfold chart_branch. apply keeps_bind; [apply keeps_chart_loop|].
    intros r. destruct (negb (nonempty r)); apply keeps_ret.
  - unfold buy_branch. repeat (apply keeps_bind; [auto with history|intros ?]).
    apply keeps_ret.
  - unfold sell_branch. repeat (apply keeps_bind; [auto with history|intros ?]).
    apply keeps_ret.
  - unfold summary_branch. repeat (apply keeps_bind; [auto with history|intros ?]).
    apply keeps_ret.
  - apply keeps_lift.
  - apply keeps_lift.
Qed.

Lemma for_each_draw (mk : Json -> Widget) (l : list Json) (w : World) :
  for_each (fun i => draw (mk i)) l w
  = ({| chat_history := chat_history w;
        screen := screen w ++ map mk l;
        requests := requests w |}, Ok tt).
Proof.
  revert w. induction l as [|x l IH]; intros [h sc n]; cbn [for_each map].
  - run_M. cbn. rewrite app_nil_r. reflexivity.
  - cbv [mbind M_bind]. unfold draw at 1. cbn [chat_history screen requests].
    rewrite IH. cbn. rewrite <- app_assoc. reflexivity.
Qed.

(** One turn of the chat: the user entry is appended first; the assistant
    entry follows when the branch returns, and is missing when it raises. *)
Lemma chat_turn (user_input : string) (w : World) :
  nonempty user_input = true ->
  (exists response,
     snd (chat env user_input w) = Ok tt
     /\ chat_history (fst (chat env user_input w))
        = chat_history w ++ dialogue [user_input] [response])
  \/ (exists e,
        snd (chat env user_input w) = Raise e
        /\ chat_history (fst (chat env user_input w))
           = chat_history w ++ [{| role := "user"; content := user_input |}]).
Proof.
  intros Hne. rewrite (chat_unfold _ _ Hne).
  pose proof (keeps_respond user_input (say "user" user_input w)) as Hk.
  destruct (respond env user_input (say "user" user_input w)) as [w' [r|e]];
    cbn in Hk.
  - left. exists r. split; [reflexivity|]. cbn. rewrite Hk, <- app_assoc.
    reflexivity.
  - right. exists e. split; [reflexivity|]. cbn. exact Hk.
Qed.

Lemma chat_empty (w : World) :
  chat_history (fst (chat env EmptyString w)) = chat_history w.
Proof. reflexivity. Qed.

(** *** The recommendation branches *)

(** C4: the code departs from the claim. For an input of the
    BuyRecommendation intent whose two requests both succeed, every pick of
    the second request is shown, and the reply is the no-picks message all
    the same, whether or not there are picks: the [else] belongs to the
    [for] loop, not to a test of the list. *)
Theorem buy_reply_is_no_picks (user_input : string) (w : World)
    (first picks : list Json) :
  classify (lower user_input) = BuyRecommendation ->
  get_stockrecommendations (http env (requests w)) = Ok first ->
  get_stockrecommendations (http env (S (requests w))) = Ok picks ->
  respond env user_input w
  = ({| chat_history := chat_history w;
        screen := screen w ++ Markdown "### Today's Stock Picks" :: map Success picks;
        requests := S (S (requests w)) |}, Ok no_picks).
Proof.
  intros Hc H1 H2. unfold respond. rewrite Hc. unfold buy_branch.
  destruct w as [h sc n]. cbn [requests] in H1, H2.
  cbv [mbind M_bind call]. cbn [chat_history screen requests].
  rewrite H1. unfold draw at 1. cbn [chat_history screen requests].
  rewrite H2, for_each_draw. cbn. rewrite <- app_assoc. reflexivity.
Qed.

(** C7: the code departs from the claim. For the input "sell today" with
    an empty loser list nothing is raised and nothing is shown, and the
    reply recorded for the assistant is the empty string: the sell branch
    never assigns [response]. *)
Theorem sell_today_reply_is_empty (w : World) :
  get_sellrecommendations (http env (requests w)) = Ok [] ->
  classify (lower "sell today") = SellRecommendation
  /\ chat env "sell today" w
     = ({| chat_history :=
             chat_history w ++ dialogue ["sell today"] [EmptyString];
           screen := screen w;
           requests := S (requests w) |}, Ok tt).
Proof.
  intros H. split; [reflexivity|].
  rewrite chat_unfold by reflexivity. unfold respond.
  change (classify (lower "sell today")) with SellRecommendation.
  cbv beta iota. unfold sell_branch. destruct w as [h sc n].
  cbn [requests] in H.
  cbv [mbind M_bind call say]. cbn [chat_history screen requests].
  rewrite H. cbn. rewrite <- app_assoc. reflexivity.
Qed.

(** C5, amended: for an input of the MarketSummary intent the router sends
    one request for the gainers and then one for the losers. When both
    lists are empty the reply is the summary heading followed by
    'No gainers reported.' and 'No losers reported.', and nothing is
    raised. When one list is empty and the other half is rendered without
    raising, the reply carries the message of the empty half next to the
    text of the other half. When the gainers request raises, the exception
    leaves the router after that one request; when the losers request
    raises, after both. *)
Theorem market_summary_outcomes (user_input : string) (w : World)
    (buys sells : list Json) (e : exn) (text : string) :
  classify (lower user_input) = MarketSummary ->
  (get_stockrecommendations (http env (requests w)) = Ok [] ->
   get_sellrecommendations (http env (S (requests w))) = Ok [] ->
   respond env user_input w
   = ({| chat_history := chat_history w;
         screen := screen w;
         requests := S (S (requests w)) |},
      Ok (summary_head +:+ no_gainers +:+ nl +:+ no_losers)))
  /\ (get_stockrecommendations (http env (requests w)) = Ok [] ->
      get_sellrecommendations (http env (S (requests w))) = Ok sells ->
      summary_half env ("**Top Losers:**" +:+ nl) no_losers sells = Ok text ->
      respond env user_input w
      = ({| chat_history := chat_history w;
            screen := screen w;
            requests := S (S (requests w)) |},
         Ok (summary_head +:+ no_gainers +:+ nl +:+ text)))
  /\ (get_stockrecommendations (http env (requests w)) = Ok buys ->
      get_sellrecommendations (http env (S (requests w))) = Ok [] ->
      summary_half env ("**Top Gainers:**" +:+ nl) no_gainers buys = Ok text ->
      respond env user_input w
      = ({| chat_history := chat_history w;
            screen := screen w;
            requests := S (S (requests w)) |},
         Ok (summary_head +:+ text +:+ nl +:+ no_losers)))
  /\ (get_stockrecommendations (http env (requests w)) = Raise e ->
      respond env user_input w
      = ({| chat_history := chat_history w;
            screen := screen w;
            requests := S (requests w) |}, Raise e))
  /\ (get_stockrecommendations (http env (requests w)) = Ok buys ->
      get_sellrecommendations (http env (S (requests w))) = Raise e ->
      respond env user_input w
      = ({| chat_history := chat_history w;
            screen := screen w;
            requests := S (S (requests w)) |}, Raise e)).
Proof.
  intros Hc. unfold respond. rewrite Hc. unfold summary_branch.
  destruct w as [h sc n]. cbn [requests chat_history screen].
  cbv [mbind M_bind call lift]. cbn [chat_history screen requests].
  split; [|split; [|split; [|split]]].
  - intros H1 H2. rewrite H1, H2. reflexivity.
  - intros H1 H2 H3. rewrite H1, H2, H3. reflexivity.
  - intros H1 H2 H3. rewrite H1, H2, H3. reflexivity.
  - intros H1. rewrite H1. reflexivity.
  - intros H1 H2. rewrite H1, H2. reflexivity.
Qed.

End RouterFacts.

(** *** Concrete runs of the chat block *)

Section RouterRuns.
Import Py Recommender App.

Lemma buy_reply_is_no_picks_witness :
  respond healthy "which stock should I buy" start
  = ({| chat_history := [];
        screen := [Markdown "### Today's Stock Picks";
                   Success (JStr "Tata Steel"); Success (JStr "Infosys")];
        requests := 2 |}, Ok no_picks).
Proof.
  apply (buy_reply_is_no_picks healthy "which stock should I buy" start
           [JStr "Tata Steel"; JStr "Infosys"] [JStr "Tata Steel"; JStr "Infosys"]);
    reflexivity.
Defined.

Lemma sell_today_reply_is_empty_witness :
  chat unavailable "sell today" start
  = ({| chat_history := dialogue ["sell today"] [EmptyString];
        screen := [];
        requests := 1 |}, Ok tt).
Proof.
  apply (proj2 (sell_today_reply_is_empty unavailable start eq_refl)).
Defined.

(** C5, as stated, fails: a 200 answer without the [trending_stocks] key,
    or an unreachable source, makes the router raise on a MarketSummary
    input instead of composing a summary. *)
Lemma market_summary_raises :
  classify (lower "market summary") = MarketSummary
  /\ snd (chat malformed "market summary" start) = Raise KeyError
  /\ snd (chat offline "market summary" start) = Raise ConnectionError.
Proof. repeat split; reflexivity. Qed.

Lemma market_summary_outcomes_witness :
  respond unavailable "market summary" start
  = ({| chat_history := []; screen := []; requests := 2 |},
     Ok (summary_head +:+ no_gainers +:+ nl +:+ no_losers))
  /\ respond offline "what's the trend" start
     = ({| chat_history := []; screen := []; requests := 1 |},
        Raise ConnectionError)
  /\ respond detailed "market today" start
     = ({| chat_history := []; screen := []; requests := 2 |},
        Ok (summary_head +:+ no_gainers +:+ nl
            +:+ ("**Top Losers:**" +:+ nl
                 +:+ ("- WIPRO – weak results" +:+ nl)))).
Proof.
  split; [|split].
  - apply (proj1 (market_summary_outcomes unavailable "market summary" start
                    [] [] KeyError EmptyString eq_refl));
      reflexivity.
  - apply (proj1 (proj2 (proj2 (proj2
             (market_summary_outcomes offline "what's the trend" start
                [] [] ConnectionError EmptyString eq_refl)))));
      reflexivity.
  - apply (proj1 (proj2
             (market_summary_outcomes detailed "market today" start []
                [JObj [("symbol", JStr "WIPRO"); ("reason", JStr "weak results")]]
                KeyError
                ("**Top Losers:**" +:+ nl +:+ ("- WIPRO – weak results" +:+ nl))
                eq_refl)));
      reflexivity.
Defined.

(** *** The chat history over a session *)

Lemma dialogue_length (inputs responses : list string) :
  length responses = length inputs ->
  length (dialogue inputs responses) = 2 * length inputs.
Proof.
  revert responses. induction inputs as [|u inputs IH]; intros [|r responses] H;
    cbn in *; try lia.
  rewrite IH by lia. lia.
Qed.

Lemma session_extends (turns : list (Env * string)) (w : World) :
  exists suffix, chat_history (session turns w) = chat_history w ++ suffix.
Proof.
  revert w. induction turns as [|[e u] turns IH]; intros w; cbn [session].
  - exists []. rewrite app_nil_r. reflexivity.
  - destruct (IH (fst (chat e u w))) as [suffix Hs]. rewrite Hs.
    destruct (nonempty u) eqn:Hne.
    + destruct (chat_turn e u w Hne) as [(r & _ & H)|(x & _ & H)];
        rewrite H, <- app_assoc; eauto.
    + destruct u; [|discriminate]. rewrite chat_empty. eauto.
Qed.

Lemma session_dialogue (turns : list (Env * string)) (w : World) :
  all_complete turns w ->
  exists responses,
    length responses = length turns
    /\ chat_history (session turns w)
       = chat_history w ++ dialogue (map snd turns) responses.
Proof.
  revert w. induction turns as [|[e u] turns IH]; intros w; cbn [session all_complete].
  - intros _. exists []. split; [reflexivity|]. cbn. rewrite app_nil_r.
    reflexivity.
  - intros (Hne & Hok & Hrest).
    destruct (IH _ Hrest) as (rs & Hlen & Hs).
    destruct (chat_turn e u w Hne) as [(r & _ & H)|(x & Hx & _)].
    + exists (r :: rs). split; [cbn; lia|].
      rewrite Hs, H, <- app_assoc. reflexivity.
    + rewrite Hok in Hx. discriminate.
Qed.

(** C8, as stated, fails: a turn whose branch raises leaves the user entry
    without an assistant entry. With an unreachable recommendation source,
    one turn "top picks" leaves a history of length one. *)
Lemma chat_history_odd_after_raise :
  classify (lower "top picks") = BuyRecommendation
  /\ snd (chat offline "top picks" start) = Raise ConnectionError
  /\ chat_history (session [(offline, "top picks")] start)
     = [{| role := "user"; content := "top picks" |}]
  /\ length (chat_history (session [(offline, "top picks")] start)) <> 2 * 1.
Proof. repeat split; try reflexivity. vm_compute. discriminate. Qed.

(** One turn of the chat, in terms of what [respond] returns. *)
Lemma chat_turn_respond (e : Env) (user_input : string) (w : World) :
  nonempty user_input = true ->
  (forall w' response,
     respond e user_input (say "user" user_input w) = (w', Ok response) ->
     snd (chat e user_input w) = Ok tt
     /\ chat_history (fst (chat e user_input w))
        = chat_history w ++ dialogue [user_input] [response])
  /\ (forall w' x,
        respond e user_input (say "user" user_input w) = (w', Raise x) ->
        snd (chat e user_input w) = Raise x
        /\ chat_history (fst (chat e user_input w))
           = chat_history w ++ [{| role := "user"; content := user_input |}])
  /\ (snd (chat e user_input w) = Ok tt ->
      exists w' response,
        respond e user_input (say "user" user_input w) = (w', Ok response)).
Proof.
  intros Hne. rewrite (chat_unfold e _ _ Hne).
  pose proof (keeps_respond e user_input (say "user" user_input w)) as Hk.
  destruct (respond e user_input (say "user" user_input w)) as [w1 [r|x]];
    cbn in Hk; split; [|split| |split].
  - intros w' response [= <- <-]. split; [reflexivity|]. cbn.
    rewrite Hk, <- app_assoc. reflexivity.
  - intros w' x [=].
  - eauto.
  - intros w' response [=].
  - intros w' x' [= <- <-]. split; [reflexivity|exact Hk].
  - discriminate.
Qed.

Lemma session_replies (turns : list (Env * string)) (w : World) :
  all_complete turns w ->
  length (replies turns w) = length turns
  /\ chat_history (session turns w)
     = chat_history w ++ dialogue (map snd turns) (replies turns w).
Proof.
  revert w. induction turns as [|[e u] turns IH]; intros w;
    cbn [session all_complete replies].
  - intros _. split; [reflexivity|]. cbn. rewrite app_nil_r. reflexivity.
  - intros (Hne & Hok & Hrest). destruct (IH _ Hrest) as [Hlen Hs].
    destruct (chat_turn_respond e u w Hne) as (Hret & _ & Hinv).
    destruct (Hinv Hok) as (w' & r & Hr).
    destruct (Hret w' r Hr) as [_ Hh].
    rewrite Hr. cbn [snd length map]. split; [lia|].
    rewrite Hs, Hh, <- app_assoc. reflexivity.
Qed.

(** C8, amended: the chat history only grows at its end, whatever the
    turns do. A turn on a non-empty input appends the user entry and then,
    when its branch returns, the assistant entry holding the response the
    branch generated; when the branch raises, the user entry alone. After
    N turns that all return, the history has grown by the N user and
    assistant entries, in arrival order, each assistant entry holding the
    response generated for its turn, that is by 2N entries. *)
Theorem chat_history_append_only (turns : list (Env * string)) (w : World) :
  (exists suffix, chat_history (session turns w) = chat_history w ++ suffix)
  /\ (forall e user_input, nonempty user_input = true ->
        (forall w' response,
           respond e user_input (say "user" user_input w) = (w', Ok response) ->
           snd (chat e user_input w) = Ok tt
           /\ chat_history (fst (chat e user_input w))
              = chat_history w ++ dialogue [user_input] [response])
        /\ (forall w' x,
              respond e user_input (say "user" user_input w) = (w', Raise x) ->
              snd (chat e user_input w) = Raise x
              /\ chat_history (fst (chat e user_input w))
                 = chat_history w ++ [{| role := "user"; content := user_input |}])
        /\ (snd (chat e user_input w) = Ok tt ->
            exists w' response,
              respond e user_input (say "user" user_input w) = (w', Ok response)))
  /\ (all_complete turns w ->
        length (replies turns w) = length turns
        /\ chat_history (session turns w)
           = chat_history w ++ dialogue (map snd turns) (replies turns w)
        /\ length (chat_history (session turns w))
           = length (chat_history w) + 2 * length turns).
Proof.
  split; [apply session_extends|split].
  - intros e u Hne. apply chat_turn_respond. exact Hne.
  - intros Hall. destruct (session_replies turns w Hall) as (Hlen & Hs).
    split; [exact Hlen|split; [exact Hs|]].
    rewrite Hs, length_app, dialogue_length; rewrite length_map; lia.
Qed.

Lemma chat_history_append_only_witness :
  chat_history (session [(healthy, "top picks"); (unavailable, "sell today")] start)
  = dialogue ["top picks"; "sell today"] [no_picks; EmptyString]
  /\ length (chat_history
               (session [(healthy, "top picks"); (unavailable, "sell today")] start))
     = length (chat_history start) + 2 * 2.
Proof.
  destruct (chat_history_append_only
              [(healthy, "top picks"); (unavailable, "sell today")] start)
    as (_ & _ & H).
  assert (Hall : all_complete
                   [(healthy, "top picks"); (unavailable, "sell today")] start).
  { vm_compute. repeat split. }
  destruct (H Hall) as (_ & Heq & Hlen). split; [|exact Hlen].
  rewrite Heq. reflexivity.
Defined.

End RouterRuns.

(** ** live_ticker.py *)

Section TickerRuns.
Import Py FetchStock LiveTicker.

Open Scope Q_scope.

Lemma final_cons (c c1 : Config) (e : Event) (tr : Trace) :
  final c ((e, c1) :: tr) = final c1 tr.
Proof.
  unfold final. rewrite last_cons. destruct (last tr) as [[e' c']|]; reflexivity.
Qed.

Lemma final_app (c : Config) (tr1 tr2 : Trace) :
  final c (tr1 ++ tr2) = final (final c tr1) tr2.
Proof.
  revert c. induction tr1 as [|[e c1] tr1 IH]; intros c; [reflexivity|].
  cbn [app]. rewrite !final_cons. apply IH.
Qed.

Lemma frame_refl (p : nat) (c : Config) : frame p c c.
Proof. repeat split. Qed.

Lemma frame_trans (p : nat) (c1 c2 c3 : Config) :
  frame p c1 c2 -> frame p c2 c3 -> frame p c1 c3.
Proof.
  intros (Ha & Hb & Hc) (Ha' & Hb' & Hc'). repeat split; try congruence.
  intros l Hl. rewrite Hc', Hc by exact Hl. reflexivity.
Qed.

Lemma setitem_frame (p : nat) (k : string) (q : Quote) (n : nat) (c : Config) :
  frame p c (setitem p k q n c).
Proof.
  repeat split; cbn.
  - apply length_alter.
  - intros l Hl. apply list_lookup_alter_ne. congruence.
Qed.

Lemma setitem_local (p : nat) (k : string) (q : Quote) (n : nat) (c : Config)
    (m : gmap string Quote) :
  heap c !! p = Some m -> heap (setitem p k q n c) !! p = Some (<[k:=q]> m).
Proof.
  intros H. cbn. rewrite list_lookup_alter_eq, H. reflexivity.
Qed.

(** A reader's view is not affected by what a frame allows. *)
Lemma frame_snapshot (p : nat) (c c' : Config) :
  frame p c c' -> live_prices c <> p -> snapshot c' = snapshot c.
Proof.
  intros (Ha & _ & Hc) Hne. unfold snapshot. rewrite Ha, Hc by exact Hne.
  reflexivity.
Qed.

Section Draws.

Variable random : nat -> Q.
Hypothesis random_range : forall n, 0 <= random n /\ random n < 1.

Lemma placeholder_fresh (n : nat) : fresh (placeholder random n).
Proof.
  unfold fresh, placeholder. cbn.
  destruct (random_range n), (random_range (n + 1)). repeat split; lra.
Qed.

Lemma store_quote_frame (yf : QuoteSource) (p : nat) (symbol : string) (c : Config) :
  frame p c (store_quote random yf p symbol c).
Proof.
  unfold store_quote.
  destruct (quote_for random yf c symbol) as [[q|e] n]; apply setitem_frame.
Qed.

(** The entry one pass of the loop body writes, whatever the source does. *)
Lemma store_quote_local (yf : QuoteSource) (p : nat) (symbol : string)
    (c : Config) (m : gmap string Quote) :
  heap c !! p = Some m ->
  exists q,
    heap (store_quote random yf p symbol c) !! p = Some (<[clean symbol := q]> m)
    /\ stored_by yf (snapshot c) symbol q.
Proof.
  intros Hm. unfold store_quote, quote_for, stored_by.
  destruct (yf symbol) as [info|e].
  2:{ eexists. split; [apply setitem_local; exact Hm|apply placeholder_fresh]. }
  assert (Hsyn : forall n,
    synthetic (snapshot c) (clean symbol)
      {| price :=
           match snapshot c !! clean symbol with
           | Some q => price q
           | None => 1000 + random n * 1000
           end * (1 + (random (n + 1) - 0.5) * 0.01);
         change := (random (n + 2) - 0.5) * 2 |}).
  { intros n. unfold synthetic.
    destruct (random_range n), (random_range (n + 1)), (random_range (n + 2)).
    eexists _, _. split; [|split; [|split; [reflexivity|]]].
    - destruct (snapshot c !! clean symbol); [reflexivity|split; lra].
    - split; lra.
    - cbn. split; lra. }
  destruct (regularMarketPrice info) as [pr|], (previousClose info) as [pc|];
    try (eexists; split; [apply setitem_local; exact Hm|apply Hsyn]).
  destruct (Qeq_bool pc 0).
  - eexists. split; [apply setitem_local; exact Hm|apply placeholder_fresh].
  - eexists. split; [apply setitem_local; exact Hm|reflexivity].
Qed.

Lemma for_symbols_frame (yf : QuoteSource) (p : nat) (syms : list string) (c : Config) :
  Forall (fun x => frame p c (snd x)) (for_symbols random yf p syms c)
  /\ frame p c (final c (for_symbols random yf p syms c)).
Proof.
  revert c. induction syms as [|s syms IH]; intros c; cbn [for_symbols].
  - split; [constructor|apply frame_refl].
  - pose proof (store_quote_frame yf p s c) as H1.
    destruct (IH (store_quote random yf p s c)) as [H2 H3]. split.
    + constructor; [exact H1|].
      eapply Forall_impl; [exact H2|]. intros x Hx.
      eapply frame_trans; eassumption.
    + rewrite final_cons. eapply frame_trans; eassumption.
Qed.

Lemma for_symbols_events (yf : QuoteSource) (p : nat) (syms : list string) (c : Config) :
  map fst (for_symbols random yf p syms c) = map (fun s => SetItem (clean s)) syms.
Proof.
  revert c. induction syms as [|s syms IH]; intros c; [reflexivity|].
  cbn [for_symbols map fst]. rewrite IH. reflexivity.
Qed.

(** The cycle-local dict after the [for] loop. *)
Lemma for_symbols_local (yf : QuoteSource) (p : nat) (syms : list string)
    (c : Config) (m : gmap string Quote) :
  heap c !! p = Some m -> live_prices c <> p ->
  exists m',
    heap (final c (for_symbols random yf p syms c)) !! p = Some m'
    /\ dom m' = dom m ∪ list_to_set (clean <$> syms)
    /\ forall k q, m' !! k = Some q ->
         m !! k = Some q
         \/ exists s, s ∈ syms /\ k = clean s /\ stored_by yf (snapshot c) s q.
Proof.
  revert c m. induction syms as [|s syms IH]; intros c m Hm Hlive;
    cbn [for_symbols].
  - exists m. split; [exact Hm|]. split; [set_solver|]. auto.
  - rewrite final_cons.
    destruct (store_quote_local yf p s c m Hm) as (q0 & Hq0 & Hs0).
    pose proof (store_quote_frame yf p s c) as Hf.
    assert (Hlive' : live_prices (store_quote random yf p s c) <> p).
    { destruct Hf as (-> & _). exact Hlive. }
    destruct (IH _ _ Hq0 Hlive') as (m' & Hm' & Hdom & Hall).
    rewrite (frame_snapshot p c _ Hf Hlive) in Hall.
    exists m'. split; [exact Hm'|]. split.
    + rewrite Hdom, dom_insert_L. set_solver.
    + intros k q Hk. destruct (Hall k q Hk) as [Hin|(s' & Hs' & -> & Hst)].
      * destruct (decide (clean s = k)) as [<-|Hne].
        -- rewrite lookup_insert_eq in Hin. injection Hin as <-.
           right. exists s. split; [set_solver|]. split; [reflexivity|exact Hs0].
        -- rewrite lookup_insert_ne in Hin by exact Hne. left. exact Hin.
      * right. exists s'. split; [set_solver|]. split; [reflexivity|exact Hst].
Qed.

(** One iteration of the [while] body, spelled out. *)
Lemma iteration_unfold (yf : QuoteSource) (fault : option exn) (c : Config) :
  let p := length (heap c) in
  let c0 := new_dict c in
  let c1 := final c0 (for_symbols random yf p symbols c0) in
  iteration random yf fault c
  = (NewDict, c0) :: for_symbols random yf p symbols c0
    ++ match fault with
       | None => [(Publish, publish p c1); (Sleep 60, publish p c1)]
       | Some _ => [(Sleep 30, c1)]
       end.
Proof.
  intros p c0 c1. unfold iteration, cycle_body. fold p c0.
  rewrite final_cons. fold c1. destruct fault as [e|].
  - rewrite final_cons. reflexivity.
  - reflexivity.
Qed.

Lemma iteration_events (yf : QuoteSource) (fault : option exn) (c : Config) :
  map fst (iteration random yf fault c)
  = NewDict :: map (fun s => SetItem (clean s)) symbols
    ++ match fault with
       | None => [Publish; Sleep 60]
       | Some _ => [Sleep 30]
       end.
Proof.
  rewrite iteration_unfold. cbn [map fst]. rewrite map_app, for_symbols_events.
  destruct fault; reflexivity.
Qed.

Lemma new_dict_facts (c : Config) :
  (live_prices c < length (heap c))%nat ->
  heap (new_dict c) !! length (heap c) = Some ∅
  /\ live_prices (new_dict c) <> length (heap c)
  /\ snapshot (new_dict c) = snapshot c
  /\ heap (new_dict c) !! live_prices c = heap c !! live_prices c.
Proof.
  intros Hlt. unfold new_dict, snapshot. cbn. repeat split.
  - rewrite lookup_app_r by lia. rewrite Nat.sub_diag. reflexivity.
  - lia.
  - rewrite lookup_app_l by exact Hlt. reflexivity.
  - rewrite lookup_app_l by exact Hlt. reflexivity.
Qed.

Lemma clean_symbols :
  clean <$> symbols
  = ["RELIANCE"; "TCS"; "HDFCBANK"; "INFY"; "TATAMOTORS"; "WIPRO"; "BAJFINANCE"].
Proof. reflexivity. Qed.

(** The dict a cycle builds: its keys are the seven names, and each entry
    is what the loop body stored for a symbol of that name. *)
Lemma cycle_dict (yf : QuoteSource) (c : Config) :
  (live_prices c < length (heap c))%nat ->
  let p := length (heap c) in
  let c1 := final (new_dict c) (for_symbols random yf p symbols (new_dict c)) in
  exists m,
    heap c1 !! p = Some m
    /\ dom m = universe
    /\ forall k q, m !! k = Some q ->
         exists s, s ∈ symbols /\ k = clean s /\ stored_by yf (snapshot c) s q.
Proof.
  intros Hlt p c1.
  destruct (new_dict_facts c Hlt) as (H0 & Hlive & Hsnap & _).
  destruct (for_symbols_local yf p symbols (new_dict c) ∅ H0 Hlive)
    as (m & Hm & Hdom & Hall).
  exists m. split; [exact Hm|]. split.
  - rewrite Hdom, clean_symbols. unfold universe. set_solver.
  - intros k q Hk. destruct (Hall k q Hk) as [Hempty|H].
    + rewrite lookup_empty in Hempty. discriminate.
    + rewrite Hsnap in H. exact H.
Qed.

Lemma stored_positive (yf : QuoteSource) (old : gmap string Quote)
    (s : string) (q : Quote) :
  (forall k o, old !! k = Some o -> 0 < price o) ->
  (forall info pr, yf s = Ok info -> regularMarketPrice info = Some pr -> 0 < pr) ->
  stored_by yf old s q -> 0 < price q.
Proof.
  intros Hold Hsrc. unfold stored_by.
  assert (Hfresh : fresh q -> 0 < price q).
  { intros [[H _] _]. lra. }
  assert (Hsyn : synthetic old (clean s) q -> 0 < price q).
  { intros (base & f & Hbase & [Hf _] & -> & _).
    apply Qmult_lt_0_compat; [|lra].
    destruct (old !! clean s) as [o|] eqn:E.
    - subst base. eapply Hold. exact E.
    - destruct Hbase. lra. }
  destruct (yf s) as [info|e]; [|exact Hfresh].
  specialize (Hsrc info).
  destruct (regularMarketPrice info) as [pr|]; [|exact Hsyn].
  destruct (previousClose info) as [pc|]; [|exact Hsyn].
  destruct (Qeq_bool pc 0); [exact Hfresh|].
  intros ->. cbn. apply Hsrc; reflexivity.
Qed.

Lemma store_quote_insert (yf : QuoteSource) (p : nat) (symbol : string)
    (c : Config) (m : gmap string Quote) :
  heap c !! p = Some m ->
  exists q,
    heap (store_quote random yf p symbol c) !! p = Some (<[clean symbol := q]> m).
Proof.
  intros Hm. unfold store_quote.
  destruct (quote_for random yf c symbol) as [[q|e] n]; eexists;
    apply setitem_local; exact Hm.
Qed.

Lemma for_symbols_dom (yf : QuoteSource) (p : nat) (syms : list string)
    (c : Config) (m : gmap string Quote) :
  heap c !! p = Some m ->
  exists m',
    heap (final c (for_symbols random yf p syms c)) !! p = Some m'
    /\ dom m' = dom m ∪ list_to_set (clean <$> syms).
Proof.
  clear random_range.
  revert c m. induction syms as [|s syms IH]; intros c m Hm; cbn [for_symbols].
  - exists m. split; [exact Hm|set_solver].
  - rewrite final_cons.
    destruct (store_quote_insert yf p s c m Hm) as (q0 & Hq0).
    destruct (IH _ _ Hq0) as (m' & Hm' & Hdom).
    exists m'. split; [exact Hm'|]. rewrite Hdom, dom_insert_L. set_solver.
Qed.

Lemma never_stopped (stop_ticker : nat -> bool) (yfs : nat -> QuoteSource)
    (faults : nat -> option exn) (fuel n : nat) (c : Config) :
  (forall k, stop_ticker k = false) ->
  snd (update_live_prices random stop_ticker yfs faults fuel n c) = Running.
Proof.
  intros Hstop. revert n c. induction fuel as [|fuel IH]; intros n c;
    cbn [update_live_prices]; [reflexivity|].
  rewrite Hstop. specialize (IH (S n)
    (final c ((CheckStop false, c) :: iteration random (yfs n) (faults n) c))).
  destruct (update_live_prices random stop_ticker yfs faults fuel (S n) _).
  exact IH.
Qed.

(** C1, amended: a refresh cycle whose publishing step does not fault runs
    to its end whatever the quote source does, and the snapshot it
    publishes has exactly the seven names as keys, one quote each. Every
    quote is what the loop body stores for its symbol: the reported price
    with the computed change when the source gives both values and the
    previous close is not zero; a synthetic quote (base price from the
    prior snapshot when present, else from 1000 up to 2000, moved by at
    most half a percent, change from -1 up to 1) when the source gives no
    data; and a fresh quote (price from 1000 up to 2000, whatever the prior
    snapshot holds) when the source raises. All published prices are
    positive provided the prices of the prior snapshot and the prices the
    source reports are. The loop does not stop unless the stop flag is
    seen. *)
Theorem refresh_cycle_snapshot (yf : QuoteSource) (c : Config) :
  (live_prices c < length (heap c))%nat ->
  let c' := final c (iteration random yf None c) in
  snd (cycle_body random yf None c) = Ok tt
  /\ dom (snapshot c') = universe
  /\ (forall k q, snapshot c' !! k = Some q ->
        exists s, s ∈ symbols /\ k = clean s /\ stored_by yf (snapshot c) s q)
  /\ ((forall s, exists e, yf s = Raise e) ->
        forall k q, snapshot c' !! k = Some q -> fresh q)
  /\ ((forall s, exists info, yf s = Ok info /\ regularMarketPrice info = None) ->
        forall k q, snapshot c' !! k = Some q -> synthetic (snapshot c) k q)
  /\ ((forall k o, snapshot c !! k = Some o -> 0 < price o) ->
      (forall s info pr,
         yf s = Ok info -> regularMarketPrice info = Some pr -> 0 < pr) ->
      forall k q, snapshot c' !! k = Some q -> 0 < price q)
  /\ (forall stop_ticker yfs faults fuel n c0,
        (forall k, stop_ticker k = false) ->
        snd (update_live_prices random stop_ticker yfs faults fuel n c0) = Running).
Proof.
  intros Hlt c'. split; [reflexivity|].
  destruct (cycle_dict yf c Hlt) as (m & Hm & Hdom & Hall).
  assert (Hsnap : snapshot c' = m).
  { unfold c'. rewrite iteration_unfold, final_cons, final_app.
    cbn [final last]. unfold snapshot, publish. cbn [heap live_prices].
    rewrite Hm. reflexivity. }
  rewrite Hsnap. split; [exact Hdom|]. split; [exact Hall|]. split; [|split; [|split]].
  - intros Hdown k q Hk. destruct (Hall k q Hk) as (s & _ & _ & Hst).
    unfold stored_by in Hst. destruct (Hdown s) as [e He]. rewrite He in Hst.
    exact Hst.
  - intros Hnone k q Hk. destruct (Hall k q Hk) as (s & _ & -> & Hst).
    unfold stored_by in Hst. destruct (Hnone s) as (info & Hi & Hr).
    rewrite Hi, Hr in Hst. exact Hst.
  - intros Hold Hsrc k q Hk. destruct (Hall k q Hk) as (s & _ & _ & Hst).
    eapply stored_positive; [exact Hold|apply Hsrc|exact Hst].
  - intros. apply never_stopped. assumption.
Qed.

End Draws.

Lemma half_range (n : nat) : 0 <= half n /\ half n < 1.
Proof. unfold half, Qle, Qlt. simpl. lia. Qed.

(** C1, as stated, fails. When the quote source raises for every symbol,
    the price published for RELIANCE is drawn afresh (1500 with draws of
    one half) although the prior snapshot holds 2830.45 for it: the base
    price is not taken from the prior snapshot. And when the source
    reports a price of zero with a previous close, zero is published. *)
Lemma refresh_cycle_not_as_stated :
  (exists q,
     snapshot (final shown_at_start (iteration half down None shown_at_start))
       !! "RELIANCE" = Some q
     /\ price q == 1500
     /\ ~ synthetic (snapshot shown_at_start) "RELIANCE" q)
  /\ (exists q,
        snapshot (final init (iteration half zero_price None init)) !! "TCS" = Some q
        /\ ~ 0 < price q).
Proof.
  split.
  - eexists. split; [vm_compute; reflexivity|]. split; [reflexivity|].
    intros (base & f & Hb & [Hf _] & Hp & _).
    vm_compute in Hb. subst base. cbn [price] in Hp.
    assert (Hq : 1500.0 == 2830.45 * f) by (rewrite Hp; reflexivity).
    lra.
  - eexists. split; [vm_compute; reflexivity|].
    intros H. vm_compute in H. discriminate.
Qed.

Lemma refresh_cycle_snapshot_witness :
  dom (snapshot (final shown_at_start (iteration half down None shown_at_start)))
  = universe
  /\ (forall k q,
        snapshot (final init (iteration half no_data None init)) !! k = Some q ->
        0 < price q).
Proof.
  split.
  - apply (refresh_cycle_snapshot half half_range down shown_at_start).
    simpl. lia.
  - assert (Hlt : (live_prices init < length (heap init))%nat) by (simpl; lia).
    apply (refresh_cycle_snapshot half half_range no_data init Hlt).
    + intros k o H. vm_compute in H. discriminate.
    + intros s info pr H1 H2. injection H1 as <-. discriminate.
Defined.


(** C2: during one iteration of the loop the quotes go to a dict made for
    this cycle; the shared reference is assigned once, after the entry of
    the last symbol, and not at all when the cycle faults. The dict the
    shared reference pointed to when the cycle began is never written. At
    every step a reader sees the previous snapshot, whole, up to the
    publication, and from then on the new one, whose keys are the seven
    names. *)
Theorem snapshot_published_atomically
    (random : nat -> Q) (yf : QuoteSource) (fault : option exn) (c : Config) :
  (live_prices c < length (heap c))%nat ->
  let tr := iteration random yf fault c in
  let c' := final c tr in
  map fst tr
  = NewDict :: map (fun s => SetItem (clean s)) symbols
    ++ match fault with
       | None => [Publish; Sleep 60]
       | Some _ => [Sleep 30]
       end
  /\ (forall ev ci, (ev, ci) ∈ tr ->
        heap ci !! live_prices c = heap c !! live_prices c)
  /\ (forall ev ci, (ev, ci) ∈ tr ->
        snapshot ci = if published ev then snapshot c' else snapshot c)
  /\ match fault with
     | None => dom (snapshot c') = universe
     | Some _ => snapshot c' = snapshot c
     end.
Proof.
  intros Hlt tr c'. split; [apply iteration_events|].
  destruct (new_dict_facts c Hlt) as (H0 & Hlive & Hsnap & Hold).
  set (p := length (heap c)) in *.
  set (c0 := new_dict c) in *.
  set (fs := for_symbols random yf p symbols c0).
  set (c1 := final c0 fs).
  assert (Hlive0 : live_prices c0 = live_prices c) by reflexivity.
  destruct (for_symbols_frame random yf p symbols c0) as [Hfs Hf1].
  fold fs in Hfs. fold fs c1 in Hf1.
  assert (Hframe : forall ci, frame p c0 ci ->
            heap ci !! live_prices c = heap c !! live_prices c
            /\ snapshot ci = snapshot c).
  { intros ci Hf. split.
    - destruct Hf as (_ & _ & Hl). rewrite Hl by (rewrite <- Hlive0; exact Hlive).
      exact Hold.
    - rewrite (frame_snapshot p c0 ci Hf Hlive). exact Hsnap. }
  assert (Hloop : forall ev ci, (ev, ci) ∈ fs ->
            published ev = false /\ frame p c0 ci).
  { intros ev ci Hin. split.
    - assert (Hev : ev ∈ map fst fs).
      { apply list_elem_of_fmap. exists (ev, ci). split; [reflexivity|exact Hin]. }
      unfold fs in Hev. rewrite for_symbols_events in Hev.
      apply list_elem_of_fmap in Hev as (s & -> & _). reflexivity.
    - rewrite Forall_forall in Hfs. exact (Hfs (ev, ci) Hin). }
  assert (Htr : tr = (NewDict, c0) :: fs
                     ++ match fault with
                        | None => [(Publish, publish p c1); (Sleep 60, publish p c1)]
                        | Some _ => [(Sleep 30, c1)]
                        end).
  { apply iteration_unfold. }
  assert (Hc' : c' = match fault with None => publish p c1 | Some _ => c1 end).
  { unfold c'. rewrite Htr, final_cons, final_app. fold c1.
    destruct fault; reflexivity. }
  assert (Hpub : heap (publish p c1) !! live_prices c = heap c !! live_prices c).
  { apply (Hframe c1 Hf1). }
  split; [|split].
  - intros ev ci Hin. rewrite Htr in Hin.
    apply elem_of_cons in Hin as [Heq|Hin].
    { injection Heq as -> ->. apply (Hframe c0 (frame_refl p c0)). }
    apply elem_of_app in Hin as [Hin|Hin].
    { apply Hframe, (Hloop ev ci Hin). }
    destruct fault.
    + apply list_elem_of_singleton in Hin. injection Hin as -> ->.
      apply (Hframe c1 Hf1).
    + apply elem_of_cons in Hin as [Heq|Hin]; [injection Heq as -> ->; exact Hpub|].
      apply list_elem_of_singleton in Hin. injection Hin as -> ->. exact Hpub.
  - intros ev ci Hin. rewrite Htr in Hin.
    apply elem_of_cons in Hin as [Heq|Hin].
    { injection Heq as -> ->. apply (Hframe c0 (frame_refl p c0)). }
    apply elem_of_app in Hin as [Hin|Hin].
    { destruct (Hloop ev ci Hin) as [-> Hf]. apply Hframe, Hf. }
    rewrite Hc'. destruct fault.
    + apply list_elem_of_singleton in Hin. injection Hin as -> ->.
      apply (Hframe c1 Hf1).
    + apply elem_of_cons in Hin as [Heq|Hin]; [injection Heq as -> ->; reflexivity|].
      apply list_elem_of_singleton in Hin. injection Hin as -> ->. reflexivity.
  - rewrite Hc'. destruct fault.
    + apply (Hframe c1 Hf1).
    + destruct (for_symbols_dom random yf p symbols c0 ∅ H0) as (m & Hm & Hdom).
      fold fs c1 in Hm. unfold snapshot, publish. cbn [heap live_prices].
      rewrite Hm. cbn. rewrite Hdom, clean_symbols. unfold universe. set_solver.
Qed.

Lemma snapshot_published_atomically_witness :
  dom (snapshot (final shown_at_start (iteration half down None shown_at_start)))
  = universe
  /\ snapshot (final shown_at_start
                 (iteration half down (Some RuntimeError) shown_at_start))
     = snapshot shown_at_start.
Proof.
  assert (Hlt : (live_prices shown_at_start < length (heap shown_at_start))%nat)
    by (simpl; lia).
  split.
  - apply (snapshot_published_atomically half down None shown_at_start Hlt).
  - apply (snapshot_published_atomically half down (Some RuntimeError)
             shown_at_start Hlt).
Defined.

Close Scope Q_scope.

Section Control.

Variable random : nat -> Q.
Variable stop_ticker : nat -> bool.
Variable yfs : nat -> QuoteSource.
Variable faults : nat -> option exn.

Lemma run_events (fuel n : nat) (c : Config) :
  map fst (fst (update_live_prices random stop_ticker yfs faults fuel n c)) = loop_events stop_ticker faults fuel n.
Proof.
  revert n c. induction fuel as [|fuel IH]; intros n c;
    cbn [update_live_prices loop_events]; [reflexivity|].
  destruct (stop_ticker n); [reflexivity|].
  specialize (IH (S n)
    (final c ((CheckStop false, c) :: iteration random (yfs n) (faults n) c))).
  destruct (update_live_prices random stop_ticker yfs faults fuel (S n) _)
    as [rest st].
  cbn [fst app map] in *. rewrite map_app, iteration_events, IH.
  cbn [app]. rewrite <- app_assoc. reflexivity.
Qed.

Lemma run_stopped (fuel n : nat) (c : Config) :
  snd (update_live_prices random stop_ticker yfs faults fuel n c) = Stopped
  <-> exists k, k < fuel /\ stop_ticker (n + k) = true.
Proof.
  revert n c. induction fuel as [|fuel IH]; intros n c;
    cbn [update_live_prices].
  - split; [discriminate|]. intros (k & Hk & _). lia.
  - destruct (stop_ticker n) eqn:Hs.
    + split; [|reflexivity]. intros _. exists 0. rewrite Nat.add_0_r.
      split; [lia|exact Hs].
    + specialize (IH (S n)
        (final c ((CheckStop false, c) :: iteration random (yfs n) (faults n) c))).
      destruct (update_live_prices random stop_ticker yfs faults fuel (S n) _)
        as [rest st].
      cbn [snd] in *. rewrite IH. split.
      * intros (k & Hk & Hst). exists (S k). split; [lia|].
        rewrite <- Hst. f_equal. lia.
      * intros ([|k] & Hk & Hst).
        -- rewrite Nat.add_0_r, Hs in Hst. discriminate.
        -- exists k. split; [lia|]. rewrite <- Hst. f_equal. lia.
Qed.

Lemma setitem_events_quiet (syms : list string) :
  List.filter is_check (map (fun s => SetItem (clean s)) syms) = []
  /\ List.filter is_sleep (map (fun s => SetItem (clean s)) syms) = [].
Proof. induction syms as [|s syms [IH1 IH2]]; split; cbn; auto. Qed.

(** Per cycle there is one look at the flag and one sleep. *)
Lemma loop_events_count (fuel n : nat) :
  length (List.filter is_check (loop_events stop_ticker faults fuel n))
  = length (List.filter is_sleep (loop_events stop_ticker faults fuel n))
    + match last (loop_events stop_ticker faults fuel n) with
      | Some (CheckStop true) => 1
      | _ => 0
      end.
Proof.
  revert n. induction fuel as [|fuel IH]; intros n; cbn [loop_events];
    [reflexivity|].
  destruct (stop_ticker n); [reflexivity|].
  destruct (setitem_events_quiet symbols) as [Hq1 Hq2].
  set (rest := loop_events stop_ticker faults fuel (S n)) in *.
  specialize (IH (S n)). fold rest in IH.
  assert (Hlast : forall tail,
            (tail = [Publish; Sleep 60] \/ tail = [Sleep 30]) ->
            match last (CheckStop false :: NewDict
                        :: map (fun s => SetItem (clean s)) symbols
                           ++ tail ++ rest) with
            | Some (CheckStop true) => 1
            | _ => 0
            end
            = match last rest with Some (CheckStop true) => 1 | _ => 0 end).
  { intros tail Htail.
    change (CheckStop false :: NewDict
            :: map (fun s => SetItem (clean s)) symbols ++ tail ++ rest)
      with ((CheckStop false :: NewDict
             :: map (fun s => SetItem (clean s)) symbols) ++ tail ++ rest).
    rewrite app_assoc, last_app.
    destruct (last rest) as [ev|] eqn:E; [reflexivity|].
    rewrite last_app. destruct Htail as [-> | ->]; reflexivity. }
  destruct (faults n) as [e|].
  - rewrite Hlast by auto. cbn [List.filter is_check is_sleep].
    rewrite !List.filter_app, Hq1, Hq2. cbn [List.filter is_check is_sleep app length].
    rewrite IH. lia.
  - rewrite Hlast by auto. cbn [List.filter is_check is_sleep].
    rewrite !List.filter_app, Hq1, Hq2. cbn [List.filter is_check is_sleep app length].
    rewrite IH. lia.
Qed.

Lemma loop_events_last (fuel n : nat) :
  (exists k, k < fuel /\ stop_ticker (n + k) = true) ->
  last (loop_events stop_ticker faults fuel n) = Some (CheckStop true).
Proof.
  revert n. induction fuel as [|fuel IH]; intros n (k & Hk & Hst); [lia|].
  cbn [loop_events]. destruct (stop_ticker n) eqn:Hs; [reflexivity|].
  assert (Hrest : last (loop_events stop_ticker faults fuel (S n))
                  = Some (CheckStop true)).
  { apply IH. destruct k as [|k].
    - rewrite Nat.add_0_r, Hs in Hst. discriminate.
    - exists k. split; [lia|]. rewrite <- Hst. f_equal. lia. }
  change (CheckStop false :: NewDict
          :: map (fun s => SetItem (clean s)) symbols
             ++ match faults n with
                | Some _ => [Sleep 30]
                | None => [Publish; Sleep 60]
                end ++ loop_events stop_ticker faults fuel (S n))
    with ((CheckStop false :: NewDict
           :: map (fun s => SetItem (clean s)) symbols)
          ++ match faults n with
             | Some _ => [Sleep 30]
             | None => [Publish; Sleep 60]
             end ++ loop_events stop_ticker faults fuel (S n)).
  rewrite app_assoc, last_app, Hrest. reflexivity.
Qed.

(** C9: the events of the loop are those the control flow prescribes.
    Every cycle begins with one look at the stop flag and has no other;
    the loop ends exactly when a look at the top of a cycle finds the flag
    set, and that look is then its last event. A cycle whose body
    completes ends with the publication and a sleep of 60 seconds; a cycle
    whose body raises ends with a sleep of 30 seconds, and the loop goes
    on to the next look at the flag. *)
Theorem refresh_loop_control (fuel n : nat) (c : Config) :
  let events := map fst (fst (update_live_prices random stop_ticker yfs faults fuel n c)) in
  events = loop_events stop_ticker faults fuel n
  /\ (snd (update_live_prices random stop_ticker yfs faults fuel n c) = Stopped
      <-> exists k, k < fuel /\ stop_ticker (n + k) = true)
  /\ (snd (update_live_prices random stop_ticker yfs faults fuel n c) = Stopped -> last events = Some (CheckStop true))
  /\ length (List.filter is_check events)
     = length (List.filter is_sleep events)
       + match last events with Some (CheckStop true) => 1 | _ => 0 end
  /\ (stop_ticker n = false ->
      exists rest,
        loop_events stop_ticker faults (S fuel) n
        = CheckStop false :: NewDict :: map (fun s => SetItem (clean s)) symbols
          ++ match faults n with
             | None => [Publish; Sleep 60]
             | Some _ => [Sleep 30]
             end
          ++ rest
        /\ rest = loop_events stop_ticker faults fuel (S n)).
Proof.
  intros events. unfold events. rewrite run_events.
  split; [reflexivity|]. split; [apply run_stopped|]. split; [|split].
  - intros H. apply loop_events_last, run_stopped with (c := c). exact H.
  - apply loop_events_count.
  - intros Hs. eexists. cbn [loop_events]. rewrite Hs. split; reflexivity.
Qed.

End Control.

Lemma refresh_loop_control_witness :
  last (map fst (fst (update_live_prices half (stop_at 2) (fun _ => down)
                        (fun k => if Nat.eqb k 1 then Some RuntimeError else None)
                        5 0 init)))
  = Some (CheckStop true).
Proof.
  apply (refresh_loop_control half (stop_at 2) (fun _ => down)
           (fun k => if Nat.eqb k 1 then Some RuntimeError else None) 5 0 init).
  vm_compute. reflexivity.
Defined.

End TickerRuns.

(** * Further properties of the code *)

(** ** Suffixes and [replace] *)

Section SuffixFacts.
Import Py.

Lemma app_empty_r (s : string) : s +:+ EmptyString = s.
Proof.
  induction s as [|c s IH]; [reflexivity|].
  change (String c s +:+ EmptyString) with (String c (s +:+ EmptyString)).
  rewrite IH. reflexivity.
Qed.

Lemma app_assoc_s (a b c : string) : (a +:+ b) +:+ c = a +:+ (b +:+ c).
Proof.
  induction a as [|x a IH]; [reflexivity|].
  change ((String x a +:+ b) +:+ c) with (String x ((a +:+ b) +:+ c)).
  rewrite IH. reflexivity.
Qed.

Lemma app_cons (c : ascii) (r t : string) :
  String c r +:+ t = String c (r +:+ t).
Proof. reflexivity. Qed.

Lemma app_nil (t : string) : EmptyString +:+ t = t.
Proof. reflexivity. Qed.

Lemma startswith_cons (a b : ascii) (p s : string) :
  startswith (String a p) (String b s)
  = if Ascii.eqb a b then startswith p s else false.
Proof. reflexivity. Qed.

Lemma contains_cons (sub : string) (c : ascii) (r : string) :
  contains sub (String c r) = startswith sub (String c r) || contains sub r.
Proof. reflexivity. Qed.

(** Without an occurrence of [old], [replace] copies its argument. *)
Lemma replace_absent (old new s : string) :
  contains old s = false -> replace old new s = s.
Proof.
  unfold replace. induction s as [|c r IH]; intros H; [reflexivity|].
  rewrite contains_cons in H. apply orb_false_iff in H as [H1 H2].
  cbn [replace_go]. rewrite H1, (IH H2). reflexivity.
Qed.

Variables x y : ascii.
Hypothesis x_not_dot : Ascii.eqb x dot = false.
Hypothesis y_not_dot : Ascii.eqb y dot = false.

(** A match cannot begin in [s] and end in a text that follows it and
    begins with a dot. *)
Lemma no_straddle (c : ascii) (r t : string) :
  startswith (dotted x y) (String c r) = false ->
  startswith (dotted x y) (String c r +:+ String dot t) = false.
Proof.
  unfold dotted. rewrite app_cons, !startswith_cons.
  destruct (Ascii.eqb dot c); [|reflexivity].
  destruct r as [|c1 r1].
  { intros _. rewrite app_nil, startswith_cons, x_not_dot. reflexivity. }
  rewrite app_cons, !startswith_cons.
  destruct (Ascii.eqb x c1); [|reflexivity].
  destruct r1 as [|c2 r2].
  { intros _. rewrite app_nil, startswith_cons, y_not_dot. reflexivity. }
  rewrite app_cons, !startswith_cons.
  destruct (Ascii.eqb y c2); [discriminate|reflexivity].
Qed.

Lemma contains_app_dot (s t : string) :
  contains (dotted x y) s = false ->
  contains (dotted x y) (s +:+ String dot t) = contains (dotted x y) (String dot t).
Proof.
  induction s as [|c r IH]; intros H; [reflexivity|].
  rewrite contains_cons in H. apply orb_false_iff in H as [H1 H2].
  rewrite app_cons, contains_cons, <- app_cons.
  rewrite (no_straddle c r t H1), (IH H2). reflexivity.
Qed.

(** A pattern at the end of a text that has no other occurrence of it is
    the one occurrence replaced. *)
Lemma replace_suffix (new s : string) :
  contains (dotted x y) s = false ->
  replace (dotted x y) new (s +:+ dotted x y) = s +:+ new.
Proof.
  unfold replace. induction s as [|c r IH]; intros H.
  - rewrite app_nil. unfold dotted. cbn [replace_go].
    rewrite !startswith_cons, !Ascii.eqb_refl. cbn [startswith].
    cbn [String.length Nat.sub replace_go]. rewrite app_nil. apply app_empty_r.
  - rewrite contains_cons in H. apply orb_false_iff in H as [H1 H2].
    pose proof (no_straddle c r (String x (String y EmptyString)) H1) as Hn.
    change (String dot (String x (String y EmptyString))) with (dotted x y) in Hn.
    rewrite app_cons in Hn |- *. cbn [replace_go].
    rewrite Hn, (IH H2). reflexivity.
Qed.

End SuffixFacts.

Section SuffixRoundTrips.
Import Py FetchStock LiveTicker.

Lemma startswith_split (a b : string) :
  startswith a b = true -> exists t, b = a +:+ t.
Proof.
  revert b. induction a as [|c a IH]; intros b H; [exists b; reflexivity|].
  destruct b as [|d b]; [discriminate|]. rewrite startswith_cons in H.
  destruct (Ascii.eqb_spec c d) as [->|]; [|discriminate].
  destruct (IH b H) as [t ->]. exists t. reflexivity.
Qed.

Lemma rev_app_s (a b : string) :
  String.rev (a +:+ b) = String.rev b +:+ String.rev a.
Proof.
  unfold String.rev. rewrite rev_app_app.
  change (String.rev_app a EmptyString)
    with (EmptyString +:+ String.rev_app a EmptyString) at 1.
  apply rev_app_acc.
Qed.

Lemma rev_involutive_s (s : string) : String.rev (String.rev s) = s.
Proof.
  induction s as [|c s IH]; [reflexivity|].
  change (String c s) with (String c EmptyString +:+ s) at 1.
  rewrite !rev_app_s, IH. reflexivity.
Qed.

Lemma contains_app_r (p u : string) : contains p (u +:+ p) = true.
Proof.
  induction u as [|c u IH].
  - rewrite app_nil. destruct p as [|a p]; [reflexivity|].
    rewrite contains_cons. rewrite <- (app_empty_r (String a p)) at 2.
    rewrite startswith_app. reflexivity.
  - rewrite app_cons, contains_cons, IH. apply orb_true_r.
Qed.

(** A text that ends with [p] contains [p]. *)
Lemma endswith_contains (p s : string) :
  endswith p s = true -> contains p s = true.
Proof.
  unfold endswith. intros H. apply startswith_split in H as [t Ht].
  rewrite <- (rev_involutive_s s), Ht, rev_app_s, rev_involutive_s.
  apply contains_app_r.
Qed.

Lemma not_contains_not_endswith (p s : string) :
  contains p s = false -> endswith p s = false.
Proof.
  intros H. destruct (endswith p s) eqn:E; [|reflexivity].
  apply endswith_contains in E. congruence.
Qed.

(** A symbol that carries the BSE suffix does not carry the NSE suffix. *)
Lemma endswith_bo_not_ns (s : string) :
  endswith ".BO" s = true -> endswith ".NS" s = false.
Proof.
  unfold endswith. destruct (String.rev s) as [|c r]; [discriminate|].
  change (String.rev ".BO") with "OB.". change (String.rev ".NS") with "SN.".
  rewrite !startswith_cons.
  destruct (Ascii.eqb_spec "O" c) as [<-|]; [reflexivity|discriminate].
Qed.

Lemma bare_with_suffix (b : string) :
  contains ".NS" b = false -> contains ".BO" b = false ->
  with_suffix b = b +:+ ".NS".
Proof.
  intros H1 H2. unfold with_suffix.
  rewrite (not_contains_not_endswith _ _ H1), (not_contains_not_endswith _ _ H2).
  reflexivity.
Qed.

Lemma replace_ns_suffix (new b : string) :
  contains ".NS" b = false -> replace ".NS" new (b +:+ ".NS") = b +:+ new.
Proof. exact (replace_suffix "N" "S" eq_refl eq_refl new b). Qed.

Lemma replace_bo_suffix (new b : string) :
  contains ".BO" b = false -> replace ".BO" new (b +:+ ".BO") = b +:+ new.
Proof. exact (replace_suffix "B" "O" eq_refl eq_refl new b). Qed.

Lemma no_ns_in_bse_symbol (b : string) :
  contains ".NS" b = false -> contains ".NS" (b +:+ ".BO") = false.
Proof. exact (contains_app_dot "N" "S" eq_refl eq_refl b "BO"). Qed.

Lemma bare_bse_symbol (b : string) :
  contains ".NS" b = false ->
  replace ".NS" ".BO" (b +:+ ".NS") = b +:+ ".BO".
Proof. apply replace_ns_suffix. Qed.

(** X1: the exchange suffix is an internal detail that [clean] undoes. For
    a symbol [b] that contains neither ".NS" nor ".BO", the name published
    for [b.NS] and for [b.BO] is [b] itself, a name without suffix is left
    as it is, and so is the name of the symbol the price lookup adds the
    NSE suffix to. *)
Theorem clean_suffix_round_trip (b : string) :
  contains ".NS" b = false -> contains ".BO" b = false ->
  clean (b +:+ ".NS") = b
  /\ clean (b +:+ ".BO") = b
  /\ clean b = b
  /\ clean (with_suffix b) = b.
Proof.
  intros H1 H2.
  assert (Hns : clean (b +:+ ".NS") = b).
  { unfold clean. rewrite (replace_ns_suffix EmptyString b H1), app_empty_r.
    apply replace_absent. exact H2. }
  split; [exact Hns|]. split; [|split].
  - unfold clean. rewrite (replace_absent ".NS").
    + rewrite (replace_bo_suffix EmptyString b H2). apply app_empty_r.
    + apply no_ns_in_bse_symbol. exact H1.
  - unfold clean. rewrite (replace_absent ".NS" _ b H1). apply replace_absent.
    exact H2.
  - rewrite bare_with_suffix by assumption. exact Hns.
Qed.

Lemma clean_suffix_round_trip_witness :
  clean ("BAJAJ-AUTO" +:+ ".NS") = "BAJAJ-AUTO"
  /\ clean ("BAJAJ-AUTO" +:+ ".BO") = "BAJAJ-AUTO"
  /\ clean "BAJAJ-AUTO" = "BAJAJ-AUTO"
  /\ clean (with_suffix "BAJAJ-AUTO") = "BAJAJ-AUTO".
Proof.
  apply (clean_suffix_round_trip "BAJAJ-AUTO"); reflexivity.
Defined.



End SuffixRoundTrips.

(** ** fetch_stock.py: historical data and the chart *)

Section StockDataFacts.
Import Py FetchStock.

Lemma verify_unusable (data : option DataFrame) (symbol : string) :
  usable data = false -> verify data symbol = ((None, symbol), [NoData symbol]).
Proof.
  intros H. unfold verify. destruct data as [d|]; [|reflexivity].
  cbn in H. rewrite H. reflexivity.
Qed.

Lemma has_required_columns (d : DataFrame) :
  List.find (fun col => negb (existsb (String.eqb col) (columns d)))
            required_columns = None ->
  forall col, col ∈ required_columns -> col ∈ columns d.
Proof.
  intros Hfind col Hin. apply list_elem_of_In in Hin.
  pose proof (List.find_none _ _ Hfind col Hin) as Hcol. cbn beta in Hcol.
  apply negb_false_iff, existsb_exists in Hcol as (c & Hc & Heq).
  apply String.eqb_eq in Heq as <-. apply list_elem_of_In. exact Hc.
Qed.

(** The three ways [get_stock_data] ends. *)
Lemma get_stock_data_cases (download : Download) (symbol period : string) :
  let s := with_suffix symbol in
  let bse := replace ".NS" ".BO" s in
  let r := get_stock_data download symbol period in
  (exists d,
     download s period = Ok (Some d) /\ empty d = false
     /\ (forall col, col ∈ required_columns -> col ∈ columns d)
     /\ r = ((Some d, s), [Fetched (rows d) s]))
  \/ (exists d,
        endswith ".NS" s = true
        /\ download bse period = Ok (Some d) /\ empty d = false
        /\ r = ((Some d, bse), []))
  \/ (exists note, r = ((None, s), [note])).
Proof.
  intros s bse r. unfold r, get_stock_data, stock_data_lookup. fold s bse.
  destruct (download s period) as [data|e]; cbn [mbind result_bind];
    [|right; right; eauto].
  destruct (usable data) eqn:Hu; cbn [negb].
  - destruct data as [d|]; [|discriminate]. cbn in Hu.
    apply negb_true_iff in Hu. unfold verify. rewrite Hu. cbn [negb].
    destruct (List.find _ required_columns) as [col|] eqn:Hfind.
    + right; right; eauto.
    + left. exists d. repeat split; auto. apply has_required_columns, Hfind.
  - destruct (endswith ".NS" s) eqn:Hns.
    + destruct (download bse period) as [bd|e]; cbn [mbind result_bind];
        [|right; right; eauto].
      destruct (usable bd) eqn:Hb.
      * destruct bd as [d|]; [|discriminate]. cbn in Hb.
        apply negb_true_iff in Hb. right; left. exists d. auto.
      * rewrite (verify_unusable bd s Hb). right; right; eauto.
    + rewrite (verify_unusable data s Hu). right; right; eauto.
Qed.

(** X3: [get_stock_data] never raises and ends in one of three ways. It
    returns the frame the quote source has for the symbol looked up (the
    input, with the NSE suffix when it carries none), which is then not
    empty and has the columns Open, High, Low, Close and Volume, with one
    success note; or it returns the non-empty frame the source has for the
    BSE symbol, under that symbol, with no note; or it returns no frame,
    the symbol looked up, and exactly one note saying why. *)
Theorem get_stock_data_outcomes (download : Download) (symbol period : string) :
  let s := with_suffix symbol in
  let bse := replace ".NS" ".BO" s in
  let r := get_stock_data download symbol period in
  (exists d,
     download s period = Ok (Some d) /\ empty d = false
     /\ (forall col, col ∈ required_columns -> col ∈ columns d)
     /\ r = ((Some d, s), [Fetched (rows d) s]))
  \/ (exists d,
        endswith ".NS" s = true
        /\ download bse period = Ok (Some d) /\ empty d = false
        /\ r = ((Some d, bse), []))
  \/ (exists note, r = ((None, s), [note])).
Proof. apply get_stock_data_cases. Qed.

(** X4: the BSE fallback skips the column check. When the source has no
    usable frame for the NSE symbol and a non-empty frame for the BSE
    symbol, that frame is returned whatever its columns are, whereas a
    frame for the symbol looked up is returned only with all five. *)
Theorem bse_fallback_unchecked (download : Download) (symbol period : string)
    (data : option DataFrame) (d : DataFrame) :
  let s := with_suffix symbol in
  let bse := replace ".NS" ".BO" s in
  download s period = Ok data -> usable data = false ->
  endswith ".NS" s = true ->
  download bse period = Ok (Some d) -> empty d = false ->
  get_stock_data download symbol period = ((Some d, bse), []).
Proof.
  intros s bse H1 Hu Hns H2 He. unfold get_stock_data, stock_data_lookup.
  fold s bse. rewrite H1. cbn [mbind result_bind]. rewrite Hu, Hns, H2.
  cbn [mbind result_bind negb usable]. rewrite He. reflexivity.
Qed.

Lemma bse_fallback_unchecked_witness :
  get_stock_data bse_listing "TCS" "1mo"
  = ((Some {| rows := 22; columns := ["Open"; "High"; "Low"; "Close"] |},
      "TCS.BO"), []).
Proof.
  apply (bse_fallback_unchecked bse_listing "TCS" "1mo"
           (Some {| rows := 0; columns := required_columns |}));
    reflexivity.
Defined.

(** Where [display_stock_chart] says yes, the source has data. *)
Lemma display_sound (download : Download) (render : string -> result unit)
    (symbol period : string) :
  display_stock_chart download render symbol period = true ->
  exists listing d,
    (listing = with_suffix symbol
     \/ listing = replace ".NS" ".BO" (with_suffix symbol))
    /\ download listing "1d" = Ok (Some d) /\ empty d = false
    /\ render (tv_symbol listing) = Ok tt.
Proof.
  unfold display_stock_chart, embed_tradingview_chart. intros H.
  destruct (get_stock_data_cases download symbol "1d")
    as [(d & Hd & He & _ & Hr)|[(d & _ & Hd & He & Hr)|(note & Hr)]];
    rewrite Hr in H.
  - exists (with_suffix symbol), d. cbn in H. rewrite He in H. cbn in H.
    destruct (render _) as [[]|]; [auto|discriminate].
  - exists (replace ".NS" ".BO" (with_suffix symbol)), d. cbn in H.
    rewrite He in H. cbn in H.
    destruct (render _) as [[]|]; [auto|discriminate].
  - discriminate.
Qed.

(** X5: [display_stock_chart] never raises; it answers [True] only when
    the quote source has a non-empty one-day frame for the symbol looked
    up or for its BSE twin and the drawing went through, and [False]
    whenever the download for the symbol looked up raises. The period
    passed in is not used. *)
Theorem display_stock_chart_sound (download : Download)
    (render : string -> result unit) (symbol period : string) :
  (display_stock_chart download render symbol period = true ->
   exists listing d,
     (listing = with_suffix symbol
      \/ listing = replace ".NS" ".BO" (with_suffix symbol))
     /\ download listing "1d" = Ok (Some d) /\ empty d = false
     /\ render (tv_symbol listing) = Ok tt)
  /\ (forall e, download (with_suffix symbol) "1d" = Raise e ->
        display_stock_chart download render symbol period = false)
  /\ (forall d, download (with_suffix symbol) "1d" = Ok (Some d) ->
        empty d = false ->
        (forall col, col ∈ required_columns -> col ∈ columns d) ->
        render (tv_symbol (with_suffix symbol)) = Ok tt ->
        display_stock_chart download render symbol period = true).
Proof.
  split; [apply display_sound|]. split.
  - intros e He. unfold display_stock_chart, embed_tradingview_chart,
      get_stock_data, stock_data_lookup.
    rewrite He. reflexivity.
  - intros d Hd He Hcols Hr.
    unfold display_stock_chart, embed_tradingview_chart.
    destruct (get_stock_data_cases download symbol "1d")
      as [(d' & Hd' & He' & _ & Hres)|[(d' & _ & _ & _ & Hres)|(note & Hres)]].
    + rewrite Hres. cbn. rewrite He'. cbn. rewrite Hr. reflexivity.
    + exfalso. revert Hres. unfold get_stock_data, stock_data_lookup.
      rewrite Hd. cbn [mbind result_bind usable]. rewrite He. cbn [negb].
      unfold verify. rewrite He. cbn [negb].
      destruct (List.find _ required_columns); discriminate.
    + exfalso. revert Hres. unfold get_stock_data, stock_data_lookup.
      rewrite Hd. cbn [mbind result_bind usable]. rewrite He. cbn [negb].
      unfold verify. rewrite He. cbn [negb].
      destruct (List.find _ required_columns) as [col|] eqn:Hfind;
        [|discriminate].
      apply List.find_some in Hfind as [Hin Hmiss].
      apply list_elem_of_In, Hcols, list_elem_of_In in Hin.
      apply negb_true_iff in Hmiss.
      assert (existsb (String.eqb col) (columns d) = true) as Hex.
      { apply existsb_exists. exists col. split; [exact Hin|].
        apply String.eqb_refl. }
      congruence.
Qed.

Lemma display_stock_chart_sound_witness :
  display_stock_chart ohlcv (fun _ => Ok tt) "INFY" "1mo" = true
  /\ display_stock_chart ohlcv (fun _ => Ok tt) "WIPRO" "1mo" = false.
Proof.
  split.
  - apply (proj2 (proj2 (display_stock_chart_sound ohlcv (fun _ => Ok tt)
                           "INFY" "1mo"))
             {| rows := 1; columns := required_columns |});
      try reflexivity.
    intros col Hcol. exact Hcol.
  - apply (proj1 (proj2 (display_stock_chart_sound ohlcv (fun _ => Ok tt)
                           "WIPRO" "1mo")) ConnectionError).
    reflexivity.
Defined.

End StockDataFacts.

(** ** app.py: more on the branches of the router *)

Section RouterMore.
Import Py Recommender App.

Variable env : Env.

Lemma chart_reply_nonempty (symbol : string) :
  nonempty (chart_reply symbol) = true.
Proof. reflexivity. Qed.

(** The loop of the chart branch tries the candidates in order and stops
    at the first that resolves. *)
Lemma chart_loop_find (words : list string) (w : World) :
  let cands :=
    map (strip ".,?!")
        (List.filter (fun word => negb (existsb (String.eqb word) stoplist)) words) in
  chart_loop env words w
  = (drawn (map Chart (attempts (display_stock_chart env) cands)) w,
     Ok match List.find (display_stock_chart env) cands with
        | Some symbol => chart_reply symbol
        | None => EmptyString
        end).
Proof.
  cbv zeta. revert w. induction words as [|word rest IH]; intros [h sc n].
  - cbn. unfold drawn. cbn. rewrite app_nil_r. reflexivity.
  - cbn [chart_loop List.filter].
    destruct (negb (existsb (String.eqb word) stoplist)); [|apply IH].
    cbn [map attempts List.find].
    cbv [mbind M_bind show_chart draw mret M_ret].
    cbn [chat_history screen requests].
    destruct (display_stock_chart env (strip ".,?!" word)).
    + reflexivity.
    + rewrite IH. unfold drawn. cbn. rewrite <- app_assoc. reflexivity.
Qed.

Lemma chart_branch_run (user_input : string) (w : World) :
  chart_branch env user_input w
  = (drawn (map Chart (attempts (display_stock_chart env) (candidates user_input))) w,
     Ok match List.find (display_stock_chart env) (candidates user_input) with
        | Some symbol => chart_reply symbol
        | None => no_symbol
        end).
Proof.
  unfold chart_branch, candidates. cbv [mbind M_bind].
  rewrite chart_loop_find.
  destruct (List.find _ _) as [symbol|]; [|reflexivity].
  rewrite chart_reply_nonempty. reflexivity.
Qed.

(** X6: the chart branch tries the candidate symbols in the order of the
    input and stops at the first one [display_stock_chart] resolves; the
    reply names that candidate, and is the no-symbol reply when none
    resolves (also when there is no candidate at all). It raises nothing
    and sends no request to the recommendation source. *)
Theorem chart_branch_first_match (user_input : string) (w : World) :
  chart_branch env user_input w
  = (drawn (map Chart (attempts (display_stock_chart env) (candidates user_input))) w,
     Ok match List.find (display_stock_chart env) (candidates user_input) with
        | Some symbol => chart_reply symbol
        | None => no_symbol
        end).
Proof. apply chart_branch_run. Qed.

Lemma get_stock_trending (gainers losers : list string) :
  get_stockrecommendations (ok200 (trending gainers losers)) = Ok (map JStr gainers).
Proof.
  unfold get_stockrecommendations, recommendations_from. cbn.
  apply mapM_company.
Qed.

Lemma get_sell_trending (gainers losers : list string) :
  get_sellrecommendations (ok200 (trending gainers losers)) = Ok (map JStr losers).
Proof.
  unfold get_sellrecommendations, recommendations_from. cbn.
  apply mapM_company.
Qed.

(** X7: how many requests a turn sends to the recommendation source, by
    intent: none for ChartLookup, NewsQuery and Fallback; one for
    SellRecommendation; for BuyRecommendation and MarketSummary two when
    the first one returns and one when it raises. *)
Theorem requests_by_intent (user_input : string) (w : World) :
  let sent := requests (fst (respond env user_input w)) in
  match classify (lower user_input) with
  | ChartLookup | NewsQuery | Fallback => sent = requests w
  | SellRecommendation => sent = S (requests w)
  | BuyRecommendation | MarketSummary =>
      match get_stockrecommendations (http env (requests w)) with
      | Ok _ => sent = S (S (requests w))
      | Raise _ => sent = S (requests w)
      end
  end.
Proof.
  cbv zeta. unfold respond. destruct w as [h sc n].
  destruct (classify (lower user_input)); cbn [requests].
  - rewrite chart_branch_run. reflexivity.
  - unfold buy_branch. cbv [mbind M_bind call]. cbn [chat_history screen requests].
    destruct (get_stockrecommendations (http env n)) as [first|e]; [|reflexivity].
    unfold draw at 1. cbn [chat_history screen requests].
    destruct (get_stockrecommendations (http env (S n))) as [picks|e];
      [|reflexivity].
    rewrite for_each_draw. reflexivity.
  - unfold sell_branch. cbv [mbind M_bind call]. cbn [chat_history screen requests].
    destruct (get_sellrecommendations (http env n)) as [losers|e]; [|reflexivity].
    rewrite for_each_draw. reflexivity.
  - unfold summary_branch. cbv [mbind M_bind call lift].
    cbn [chat_history screen requests].
    destruct (get_stockrecommendations (http env n)) as [buys|e]; [|reflexivity].
    destruct (get_sellrecommendations (http env (S n))) as [sells|e];
      [|reflexivity].
    destruct (summary_half env _ _ buys); [|reflexivity].
    destruct (summary_half env _ _ sells); reflexivity.
  - reflexivity.
  - reflexivity.
Qed.

(** X8: the sell branch. Every loser the source returns is shown with
    [st.error], in order, and the reply is the empty string, whether or
    not there are losers; a failure of the request leaves the router as
    the exception it is, after the one request. *)
Theorem sell_branch_outcomes (user_input : string) (w : World) :
  classify (lower user_input) = SellRecommendation ->
  (forall losers,
     get_sellrecommendations (http env (requests w)) = Ok losers ->
     respond env user_input w
     = (drawn (map Error losers) (asked 1 w), Ok EmptyString))
  /\ (forall e,
        get_sellrecommendations (http env (requests w)) = Raise e ->
        respond env user_input w = (asked 1 w, Raise e)).
Proof.
  intros Hc. unfold respond. rewrite Hc. unfold sell_branch.
  destruct w as [h sc n]. cbv [mbind M_bind call].
  cbn [chat_history screen requests]. split.
  - intros losers H. rewrite H, for_each_draw. reflexivity.
  - intros e H. rewrite H. reflexivity.
Qed.

(** X9: the buy branch asks the source twice. The answer to the first
    request is thrown away, yet when that request raises the turn ends
    there, before anything is drawn; the picks shown are those of the
    second request, and when it raises the heading is already on the
    page. *)
Theorem buy_branch_asks_twice (user_input : string) (w : World) :
  classify (lower user_input) = BuyRecommendation ->
  (forall e,
     get_stockrecommendations (http env (requests w)) = Raise e ->
     respond env user_input w = (asked 1 w, Raise e))
  /\ (forall first e,
        get_stockrecommendations (http env (requests w)) = Ok first ->
        get_stockrecommendations (http env (S (requests w))) = Raise e ->
        respond env user_input w
        = (drawn [Markdown "### Today's Stock Picks"] (asked 2 w), Raise e))
  /\ (forall first picks,
        get_stockrecommendations (http env (requests w)) = Ok first ->
        get_stockrecommendations (http env (S (requests w))) = Ok picks ->
        screen (fst (respond env user_input w))
        = screen w ++ Markdown "### Today's Stock Picks" :: map Success picks).
Proof.
  intros Hc. unfold respond. rewrite Hc. unfold buy_branch.
  destruct w as [h sc n]. cbv [mbind M_bind call].
  cbn [chat_history screen requests]. split; [|split].
  - intros e H. rewrite H. reflexivity.
  - intros first e H1 H2. rewrite H1. unfold draw at 1.
    cbn [chat_history screen requests]. rewrite H2. reflexivity.
  - intros first picks H1 H2. rewrite H1. unfold draw at 1.
    cbn [chat_history screen requests]. rewrite H2, for_each_draw. cbn.
    rewrite <- app_assoc. reflexivity.
Qed.

Lemma summary_half_strings (title none name : string) (names : list string) :
  summary_half env title none (map JStr (name :: names)) = Raise TypeError.
Proof. reflexivity. Qed.

(** X10: the market summary cannot list anything. When the source answers
    both requests with the expected payload and there is at least one
    gainer or one loser, the branch raises [TypeError], since it indexes
    the company names, which are strings, with ['symbol']; the turn then
    leaves the user entry in the chat history without an answer. *)
Theorem market_summary_type_error (user_input : string) (w : World)
    (gainers losers : list string) :
  classify (lower user_input) = MarketSummary ->
  nonempty user_input = true ->
  http env (requests w) = ok200 (trending gainers losers) ->
  http env (S (requests w)) = ok200 (trending gainers losers) ->
  gainers <> [] \/ losers <> [] ->
  respond env user_input w = (asked 2 w, Raise TypeError)
  /\ chat env user_input w
     = (asked 2 (say "user" user_input w), Raise TypeError).
Proof.
  intros Hc Hne H1 H2 Hsome.
  assert (Hr : forall w0, requests w0 = requests w ->
            respond env user_input w0 = (asked 2 w0, Raise TypeError)).
  { intros [h sc n] Hn. cbn in Hn. subst n.
    unfold respond. rewrite Hc. unfold summary_branch.
    cbv [mbind M_bind call lift]. cbn [chat_history screen requests].
    rewrite H1, H2, get_stock_trending, get_sell_trending.
    destruct gainers as [|g gs].
    - destruct losers as [|l ls]; [destruct Hsome; congruence|].
      rewrite (summary_half_strings _ no_losers l ls). reflexivity.
    - rewrite (summary_half_strings _ no_gainers g gs). reflexivity. }
  split; [apply Hr; reflexivity|].
  unfold chat. rewrite Hne. cbv [mbind M_bind append_history].
  fold (say "user" user_input w). rewrite Hr by reflexivity. reflexivity.
Qed.

Lemma filterM_no_keywords (items : list Json) :
  filterM (fun item => matches item []) items = Ok [].
Proof.
  induction items as [|item items IH]; [reflexivity|].
  cbn [filterM]. rewrite IH. reflexivity.
Qed.

(** X11: the news branches degrade as follows. With no news items the
    NewsQuery reply is the no-news message and the Fallback reply is the
    help message; an input made of white space only gets the help message
    whatever the items are, since no keyword is tested and no item is
    read; and when [fetch_news] raises, both branches raise. *)
Theorem news_replies_degrade (user_input : string) (w : World) :
  (classify (lower user_input) = NewsQuery -> fetch_news env = Ok [] ->
     respond env user_input w = (w, Ok no_news))
  /\ (classify (lower user_input) = Fallback -> fetch_news env = Ok [] ->
        respond env user_input w = (w, Ok help))
  /\ (classify (lower user_input) = Fallback -> split (lower user_input) = [] ->
        forall items, fetch_news env = Ok items ->
        respond env user_input w = (w, Ok help))
  /\ (forall e,
        classify (lower user_input) = NewsQuery
        \/ classify (lower user_input) = Fallback ->
        fetch_news env = Raise e ->
        respond env user_input w = (w, Raise e)).
Proof.
  unfold respond, news_branch, fallback_branch, lift.
  split; [|split; [|split]].
  - intros -> ->. reflexivity.
  - intros -> ->. reflexivity.
  - intros -> Hsplit items ->. cbv zeta. rewrite Hsplit.
    cbn [mbind result_bind]. rewrite filterM_no_keywords. reflexivity.
  - intros e [-> | ->] ->; reflexivity.
Qed.

End RouterMore.

Section RouterMoreRuns.
Import Py Recommender App.

Lemma sell_branch_outcomes_witness :
  respond healthy "what to avoid" start
  = (drawn [Error (JStr "Wipro")] (asked 1 start), Ok EmptyString)
  /\ respond offline "what to avoid" start = (asked 1 start, Raise ConnectionError).
Proof.
  destruct (sell_branch_outcomes healthy "what to avoid" start eq_refl) as [H1 _].
  destruct (sell_branch_outcomes offline "what to avoid" start eq_refl) as [_ H2].
  split; [apply (H1 [JStr "Wipro"])|apply H2]; reflexivity.
Defined.

Lemma buy_branch_asks_twice_witness :
  respond offline "top picks" start = (asked 1 start, Raise ConnectionError)
  /\ respond flaky "top picks" start
     = (drawn [Markdown "### Today's Stock Picks"] (asked 2 start),
        Raise ConnectionError).
Proof.
  destruct (buy_branch_asks_twice offline "top picks" start eq_refl) as [H1 _].
  destruct (buy_branch_asks_twice flaky "top picks" start eq_refl) as (_ & H2 & _).
  split; [apply H1|apply (H2 [JStr "Tata Steel"])]; reflexivity.
Defined.

Lemma market_summary_type_error_witness :
  chat healthy "market summary" start
  = (asked 2 (say "user" "market summary" start), Raise TypeError).
Proof.
  apply (market_summary_type_error healthy "market summary" start
           ["Tata Steel"; "Infosys"] ["Wipro"]); try reflexivity.
  left. discriminate.
Defined.

Lemma news_replies_degrade_witness :
  respond healthy "latest news" start = (start, Ok no_news)
  /\ respond odd_news "   " start = (start, Ok help).
Proof.
  split.
  - apply (proj1 (news_replies_degrade healthy "latest news" start));
      reflexivity.
  - apply (proj1 (proj2 (proj2 (news_replies_degrade odd_news "   " start)))
             eq_refl eq_refl [JNull; JStr "headline"]).
    reflexivity.
Defined.

End RouterMoreRuns.

(** ** news_fetcher.py *)

Section NewsFacts.
Import Py NewsFetcher.

Lemma story_item_complete (now : string) (story : Story) :
  complete story = true ->
  exists item, story_item now story = Ok item /\ scraped item.
Proof.
  unfold complete, story_item. destruct (h3 story) as [t|]; [|discriminate].
  destruct (a_href story) as [[href|]|]; try discriminate. intros _.
  eexists. split; [reflexivity|]. unfold scraped. eauto.
Qed.

Lemma story_item_incomplete (now : string) (story : Story) :
  complete story = false -> exists e, story_item now story = Raise e.
Proof.
  unfold complete, story_item. destruct (h3 story) as [t|]; [|eauto].
  destruct (a_href story) as [[href|]|]; try discriminate; eauto.
Qed.

Lemma scrape_stories_ok (clock : nat -> string) (i : nat) (stories : list Story) :
  forallb complete stories = true ->
  exists items,
    scrape_stories clock i stories = Ok items
    /\ length items = length stories
    /\ Forall scraped items.
Proof.
  revert i. induction stories as [|story rest IH]; intros i H.
  - exists []. repeat split. constructor.
  - cbn [forallb] in H. apply andb_true_iff in H as [Hc Hrest].
    destruct (story_item_complete (clock i) story Hc) as (item & Hitem & Hok).
    destruct (IH (S i) Hrest) as (items & Hitems & Hlen & Hall).
    exists (item :: items). cbn [scrape_stories]. rewrite Hitem.
    cbn [mbind result_bind]. rewrite Hitems. cbn [mbind result_bind].
    repeat split; [cbn; lia|constructor; assumption].
Qed.

Lemma scrape_stories_fail (clock : nat -> string) (i : nat) (stories : list Story) :
  forallb complete stories = false ->
  exists e, scrape_stories clock i stories = Raise e.
Proof.
  revert i. induction stories as [|story rest IH]; intros i H; [discriminate|].
  cbn [forallb] in H. cbn [scrape_stories].
  destruct (complete story) eqn:Hc.
  - destruct (story_item_complete (clock i) story Hc) as (item & -> & _).
    cbn [mbind result_bind]. destruct (IH (S i) H) as [e ->]. eauto.
  - destruct (story_item_incomplete (clock i) story Hc) as [e ->]. eauto.
Qed.

(** What the scraper returns, when it returns. *)
Lemma scrape_ok (page : result (list Story)) (clock : nat -> string)
    (count : nat) (items : list Json) :
  scrape_economic_times page clock count = Ok items ->
  exists stories,
    page = Ok stories
    /\ forallb complete (take count stories) = true
    /\ length items = count `min` length stories
    /\ Forall scraped items.
Proof.
  unfold scrape_economic_times. destruct page as [stories|e]; [|discriminate].
  cbn [mbind result_bind]. intros H. exists stories. split; [reflexivity|].
  destruct (forallb complete (take count stories)) eqn:Hc.
  - destruct (scrape_stories_ok clock 0 _ Hc) as (items' & H' & Hlen & Hall).
    rewrite H' in H. injection H as <-.
    rewrite length_take in Hlen. auto.
  - destruct (scrape_stories_fail clock 0 _ Hc) as [e He]. congruence.
Qed.

(** X12: the scraper. It returns exactly when the request succeeds and
    each of the first [count] stories has an [h3] and an anchor with an
    [href]; it then returns one item per such story, so at most [count],
    each a dict whose title, url and description are strings and whose url
    starts with the address of the site. A failed request, or one story
    among the first [count] without heading or link, makes it raise; it
    returns no partial list. *)
Theorem scrape_economic_times_outcomes (page : result (list Story))
    (clock : nat -> string) (count : nat) :
  (forall items,
     scrape_economic_times page clock count = Ok items ->
     exists stories,
       page = Ok stories
       /\ forallb complete (take count stories) = true
       /\ length items = count `min` length stories
       /\ length items <= count
       /\ Forall scraped items)
  /\ (forall stories,
        page = Ok stories -> forallb complete (take count stories) = true ->
        exists items, scrape_economic_times page clock count = Ok items)
  /\ (forall stories,
        page = Ok stories -> forallb complete (take count stories) = false ->
        exists e, scrape_economic_times page clock count = Raise e)
  /\ (forall e, page = Raise e ->
        scrape_economic_times page clock count = Raise e).
Proof.
  split; [|split; [|split]].
  - intros items H. destruct (scrape_ok page clock count items H)
      as (stories & Hp & Hc & Hlen & Hall).
    exists stories. repeat split; auto. lia.
  - intros stories -> Hc. unfold scrape_economic_times. cbn [mbind result_bind].
    destruct (scrape_stories_ok clock 0 _ Hc) as (items & H & _). eauto.
  - intros stories -> Hc. unfold scrape_economic_times. cbn [mbind result_bind].
    apply scrape_stories_fail, Hc.
  - intros e ->. reflexivity.
Qed.

Lemma scrape_economic_times_outcomes_witness :
  (exists items, scrape_economic_times (Ok two_stories) (fun _ => "2024-01-01 09:15:00") 5
                 = Ok items)
  /\ scrape_economic_times (Raise ConnectionError) (fun _ => "2024-01-01 09:15:00") 5
     = Raise ConnectionError.
Proof.
  split.
  - apply (proj1 (proj2 (scrape_economic_times_outcomes (Ok two_stories)
                           (fun _ => "2024-01-01 09:15:00") 5)) two_stories);
      reflexivity.
  - apply (proj2 (proj2 (proj2 (scrape_economic_times_outcomes
                                  (Raise ConnectionError)
                                  (fun _ => "2024-01-01 09:15:00") 5)))).
    reflexivity.
Defined.

(** X13: [fetch_news] falls back to the scraper. It returns the articles
    of the API whenever the API call returns a dict with that key, and
    then does not look at the page; in every other case it returns what
    the scraper returns. So it raises only when the API attempt fails and
    the scraper raises too, with the exception of the scraper. *)
Theorem fetch_news_fallback (api : result Json) (page : result (list Story))
    (clock : nat -> string) (count : nat) :
  (forall news articles,
     api = Ok news -> getitem news "articles" = Ok articles ->
     fetch_news api page clock count = Ok articles)
  /\ (forall e, api = Raise e ->
        fetch_news api page clock count
        = (items ← scrape_economic_times page clock count; Ok (JList items)))
  /\ (forall news e, api = Ok news -> getitem news "articles" = Raise e ->
        fetch_news api page clock count
        = (items ← scrape_economic_times page clock count; Ok (JList items)))
  /\ (forall e, fetch_news api page clock count = Raise e ->
        scrape_economic_times page clock count = Raise e
        /\ forall news, api = Ok news -> exists x, getitem news "articles" = Raise x).
Proof.
  unfold fetch_news. split; [|split; [|split]].
  - intros news articles -> H. cbn [mbind result_bind]. rewrite H. reflexivity.
  - intros e ->. reflexivity.
  - intros news e -> H. cbn [mbind result_bind]. rewrite H. reflexivity.
  - intros e. destruct api as [news|x]; cbn [mbind result_bind].
    + destruct (getitem news "articles") as [articles|x] eqn:Hg; [discriminate|].
      destruct (scrape_economic_times page clock count); [discriminate|].
      intros [= ->]. split; [reflexivity|]. intros n [= <-]. eauto.
    + destruct (scrape_economic_times page clock count); [discriminate|].
      intros [= ->]. split; [reflexivity|]. discriminate.
Qed.

Lemma fetch_news_fallback_witness :
  fetch_news (Ok (JObj [("status", JStr "ok"); ("articles", JList [])]))
             (Raise ConnectionError) (fun _ => EmptyString) 5
  = Ok (JList [])
  /\ fetch_news (Raise RuntimeError) (Raise ConnectionError) (fun _ => EmptyString) 5
     = Raise ConnectionError.
Proof.
  split.
  - apply (proj1 (fetch_news_fallback _ (Raise ConnectionError)
                    (fun _ => EmptyString) 5)
             (JObj [("status", JStr "ok"); ("articles", JList [])]));
      reflexivity.
  - destruct (fetch_news_fallback (Raise RuntimeError) (Raise ConnectionError)
                (fun _ => EmptyString) 5) as (_ & H & _).
    rewrite (H RuntimeError eq_refl). reflexivity.
Defined.

End NewsFacts.

(** ** The router with its collaborators behind it *)

Section Compositions.
Import Py FetchStock App.

(** X14: the symbol of the TradingView widget. For a symbol [b] that
    contains neither ".NS" nor ".BO", the symbol [get_stock_data] returns
    is [b.NS] or [b.BO], and the widget is given [NSE:b], respectively
    [BSE:b]: the suffix is replaced by the exchange prefix and the
    default case of the formatting is never reached. *)
Theorem tradingview_symbol_bare (download : Download) (b period : string) :
  contains ".NS" b = false -> contains ".BO" b = false ->
  tv_symbol (b +:+ ".NS") = "NSE:" +:+ b
  /\ tv_symbol (b +:+ ".BO") = "BSE:" +:+ b
  /\ (let verified := snd (fst (get_stock_data download b period)) in
      (verified = b +:+ ".NS" /\ tv_symbol verified = "NSE:" +:+ b)
      \/ (verified = b +:+ ".BO" /\ tv_symbol verified = "BSE:" +:+ b)).
Proof.
  intros H1 H2.
  assert (Hns : tv_symbol (b +:+ ".NS") = "NSE:" +:+ b).
  { unfold tv_symbol. rewrite endswith_app, (replace_ns_suffix _ b H1), app_empty_r.
    reflexivity. }
  assert (Hbo : tv_symbol (b +:+ ".BO") = "BSE:" +:+ b).
  { unfold tv_symbol.
    rewrite (endswith_bo_not_ns _ (endswith_app ".BO" b)), endswith_app.
    rewrite (replace_bo_suffix _ b H2), app_empty_r. reflexivity. }
  split; [exact Hns|]. split; [exact Hbo|]. cbv zeta.
  pose proof (get_stock_data_cases download b period) as Hcases.
  cbv zeta in Hcases.
  rewrite (bare_with_suffix b H1 H2), (bare_bse_symbol b H1) in Hcases.
  destruct Hcases as [(d & _ & _ & _ & ->)|[(d & _ & _ & _ & ->)|(note & ->)]];
    cbn [fst snd]; auto.
Qed.

Lemma tradingview_symbol_bare_witness :
  tv_symbol ("M&M" +:+ ".NS") = "NSE:" +:+ "M&M"
  /\ tv_symbol ("M&M" +:+ ".BO") = "BSE:" +:+ "M&M".
Proof.
  destruct (tradingview_symbol_bare ohlcv "M&M" "1mo" eq_refl eq_refl)
    as (H1 & H2 & _).
  split; assumption.
Defined.

(** X15: with [display_stock_chart] of fetch_stock.py behind the router,
    the chart branch names a symbol only when the quote source returned a
    non-empty one-day frame for it, under the symbol looked up or under
    its BSE twin; the symbol named is one of the candidates of the input.
    The period the router passes ("1mo") plays no part. *)
Theorem chart_reply_has_data (download : Download)
    (render : string -> result unit) (e : Env) (user_input : string)
    (w : World) (reply : string) :
  snd (chart_branch (with_market download render e) user_input w) = Ok reply ->
  reply = no_symbol
  \/ exists symbol listing d,
       In symbol (candidates user_input)
       /\ reply = chart_reply symbol
       /\ (listing = with_suffix symbol
           \/ listing = replace ".NS" ".BO" (with_suffix symbol))
       /\ download listing "1d" = Ok (Some d)
       /\ empty d = false.
Proof.
  rewrite chart_branch_run. cbn [snd].
  destruct (List.find _ (candidates user_input)) as [symbol|] eqn:Hfind.
  - intros [= <-]. right. apply List.find_some in Hfind as [Hin Hok].
    cbn [display_stock_chart with_market] in Hok.
    destruct (display_sound download render symbol "1mo" Hok)
      as (listing & d & Hl & Hd & He & _).
    exists symbol, listing, d. auto.
  - intros [= <-]. left. reflexivity.
Qed.

Lemma chart_reply_has_data_witness :
  chart_reply "INFY" = no_symbol
  \/ exists symbol listing d,
       In symbol (candidates "Show me INFY chart")
       /\ chart_reply "INFY" = chart_reply symbol
       /\ (listing = with_suffix symbol
           \/ listing = replace ".NS" ".BO" (with_suffix symbol))
       /\ ohlcv listing "1d" = Ok (Some d)
       /\ empty d = false.
Proof.
  apply (chart_reply_has_data ohlcv (fun _ => Ok tt) healthy
           "Show me INFY chart" start).
  reflexivity.
Defined.

End Compositions.

Section NewsCompositions.
Import Py App.

Lemma relevant_scraped (words : list string) (item : Json) :
  NewsFetcher.scraped item -> exists b, relevant words item = Ok b.
Proof.
  intros (title & path & desc & stamp & ->). eexists. reflexivity.
Qed.

Lemma matches_scraped (item : Json) (keywords : list string) :
  NewsFetcher.scraped item -> exists b, matches item keywords = Ok b.
Proof.
  intros (title & path & desc & stamp & ->).
  induction keywords as [|kw rest IH]; [eexists; reflexivity|].
  match goal with
  | |- exists b, matches ?item _ = _ =>
      replace (matches item (kw :: rest))
        with (if contains kw (lower title) then Ok true
              else if contains kw (lower desc) then Ok true
              else matches item rest) by reflexivity
  end.
  destruct (contains kw (lower title)); [eexists; reflexivity|].
  destruct (contains kw (lower desc)); [eexists; reflexivity|exact IH].
Qed.

Lemma news_line_scraped (e : Env) (item : Json) :
  NewsFetcher.scraped item -> exists line, news_line e item = Ok line.
Proof.
  intros (title & path & desc & stamp & ->). eexists. reflexivity.
Qed.

Lemma filterM_total (p : Json -> result bool) (items : list Json) :
  Forall (fun item => exists b, p item = Ok b) items ->
  exists kept, filterM p items = Ok kept /\ forall item, item ∈ kept -> item ∈ items.
Proof.
  induction 1 as [|item items [b Hb] _ (kept & Hk & Hsub)].
  - exists []. split; [reflexivity|auto].
  - cbn [filterM]. rewrite Hb. cbn [mbind result_bind]. rewrite Hk.
    cbn [mbind result_bind]. destruct b; eexists; (split; [reflexivity|]).
    + intros x Hx. apply elem_of_cons in Hx as [->|Hx]; [left|right; auto].
    + intros x Hx. right. auto.
Qed.

Lemma news_lines_total (e : Env) (head : string) (items : list Json) :
  Forall NewsFetcher.scraped items -> exists text, news_lines e head items = Ok text.
Proof.
  intros H. unfold news_lines.
  assert (exists lines, mapM (news_line e) items = Ok lines) as [lines ->].
  { induction H as [|item items Hi _ [lines Hl]]; [eexists; reflexivity|].
    destruct (news_line_scraped e item Hi) as [line Hline].
    cbn [mapM]. rewrite Hline. cbn [mbind result_bind]. rewrite Hl.
    eexists. reflexivity. }
  eexists. reflexivity.
Qed.

Lemma scraped_take (n : nat) (kept items : list Json) :
  Forall NewsFetcher.scraped items ->
  (forall item, item ∈ kept -> item ∈ items) ->
  Forall NewsFetcher.scraped (take n kept).
Proof.
  intros Hall Hsub. apply Forall_forall. intros x Hx.
  rewrite Forall_forall in Hall. apply Hall, Hsub.
  apply (subseteq_take n kept). exact Hx.
Qed.

(** X16: the news of the scraper never break the router. When the API
    attempt of [fetch_news] fails and the scraper returns, a NewsQuery or
    Fallback turn returns a reply, whatever the input: every scraped item
    has the string fields the filters and the formatting read. *)
Theorem scraped_news_never_raise (e : Env) (api : result Json)
    (page : result (list NewsFetcher.Story)) (clock : nat -> string)
    (count : nat) (items : list Json) (user_input : string) (w : World) :
  (forall news, api = Ok news -> exists x, getitem news "articles" = Raise x) ->
  NewsFetcher.scrape_economic_times page clock count = Ok items ->
  classify (lower user_input) = NewsQuery
  \/ classify (lower user_input) = Fallback ->
  exists reply,
    respond (with_news (NewsFetcher.fetch_news api page clock count) e)
            user_input w
    = (w, Ok reply).
Proof.
  intros Hapi Hscrape Hc.
  destruct (scrape_ok page clock count items Hscrape) as (_ & _ & _ & _ & Hall).
  assert (Hnews : fetch_news
                    (with_news (NewsFetcher.fetch_news api page clock count) e)
                  = Ok items).
  { cbn [fetch_news with_news]. unfold NewsFetcher.fetch_news.
    destruct api as [news|x]; cbn [mbind result_bind].
    - destruct (Hapi news eq_refl) as [x ->]. rewrite Hscrape. reflexivity.
    - rewrite Hscrape. reflexivity. }
  unfold respond, lift. destruct Hc as [-> | ->].
  - unfold news_branch. rewrite Hnews. cbn [mbind result_bind].
    destruct (filterM_total (relevant (split (lower user_input))) items)
      as (kept & -> & Hsub).
    { eapply Forall_impl; [exact Hall|]. intros item. apply relevant_scraped. }
    cbn [mbind result_bind]. destruct kept as [|k kept]; [eauto|].
    destruct (news_lines_total
                (with_news (NewsFetcher.fetch_news api page clock count) e)
                ("🗞️ Here's the latest news related to your query:" +:+ nl +:+ nl)
                (take 5 (k :: kept))) as [text ->]; [|eauto].
    apply (scraped_take 5 (k :: kept) items Hall Hsub).
  - unfold fallback_branch. rewrite Hnews. cbn [mbind result_bind]. cbv zeta.
    destruct (filterM_total (fun item => matches item (split (lower user_input)))
                items) as (kept & -> & Hsub).
    { eapply Forall_impl; [exact Hall|]. intros item Hi.
      apply matches_scraped, Hi. }
    cbn [mbind result_bind]. destruct kept as [|k kept]; [eauto|].
    destruct (news_lines_total
                (with_news (NewsFetcher.fetch_news api page clock count) e)
                ("Here’s what I found related to your query:" +:+ nl +:+ nl)
                (take 3 (k :: kept))) as [text ->]; [|eauto].
    apply (scraped_take 3 (k :: kept) items Hall Hsub).
Qed.

Lemma scraped_news_never_raise_witness :
  exists reply,
    respond (with_news (NewsFetcher.fetch_news (Raise RuntimeError)
                          (Ok NewsFetcher.two_stories)
                          (fun _ => "2024-01-01 09:15:00") 5) healthy)
            "sensex today" start
    = (start, Ok reply).
Proof.
  eapply (scraped_news_never_raise healthy (Raise RuntimeError)
            (Ok NewsFetcher.two_stories) (fun _ => "2024-01-01 09:15:00") 5).
  - discriminate.
  - reflexivity.
  - right. reflexivity.
Defined.

End NewsCompositions.

(** ** recommender.py: the list that comes back *)

Section RecommenderMore.
Import Py Recommender.

Lemma mapM_ok {A B : Type} (f : A -> result B) (l : list A) (ys : list B) :
  mapM f l = Ok ys <-> Forall2 (fun x y => f x = Ok y) l ys.
Proof.
  revert ys. induction l as [|x l IH]; intros ys; cbn [mapM].
  - split.
    + intros [= <-]. constructor.
    + intros H. inversion H. reflexivity.
  - split.
    + destruct (f x) as [y|e] eqn:Hx; [|discriminate].
      cbn [mbind result_bind].
      destruct (mapM f l) as [ys'|e]; [|discriminate].
      intros [= <-]. constructor; [exact Hx|]. apply IH. reflexivity.
    + intros H. apply Forall2_cons_inv_l in H as (y & ys' & Hy & Hrest & ->).
      apply IH in Hrest. rewrite Hy. cbn [mbind result_bind].
      rewrite Hrest. reflexivity.
Qed.

Lemma mapM_raise {A B : Type} (f : A -> result B) (l : list A) (x : A) :
  x ∈ l -> (forall y, f x <> Ok y) -> exists e, mapM f l = Raise e.
Proof.
  intros Hin Hx. destruct (mapM f l) as [ys|e] eqn:H; [|eauto].
  apply mapM_ok in H. apply list_elem_of_lookup in Hin as [i Hi].
  destruct (Forall2_lookup_l _ _ _ _ _ H Hi) as (y & _ & Hy).
  exfalso. exact (Hx y Hy).
Qed.

(** X17: what the recommender returns for a 200 response whose payload
    has the list [lst] under [trending_stocks] and the key asked for. It
    returns exactly when every element of [lst] is a dict with a
    [company_name]; the result then has one entry per element, in the
    order of the list, each the value of that key as it is (nothing is
    filtered, deduplicated or checked to be a string). One element without
    the key makes the whole call raise: no partial list comes back. *)
Theorem recommendations_all_or_nothing (key : string)
    (items : list (string * Json)) (stocks : Json) (lst : list Json) :
  assoc "trending_stocks" items = Some stocks ->
  getitem stocks key = Ok (JList lst) ->
  (forall names,
     recommendations_from key (ok200 (JObj items)) = Ok names
     <-> Forall2 (fun item name => getitem item "company_name" = Ok name) lst names)
  /\ (forall names,
        recommendations_from key (ok200 (JObj items)) = Ok names ->
        length names = length lst)
  /\ (forall item,
        item ∈ lst -> (forall name, getitem item "company_name" <> Ok name) ->
        exists e, recommendations_from key (ok200 (JObj items)) = Raise e).
Proof.
  intros Hts Hkey.
  assert (Heq : recommendations_from key (ok200 (JObj items))
                = mapM (fun i => getitem i "company_name") lst).
  { unfold recommendations_from, ok200. cbn [mbind result_bind status_code json].
    cbn [Z.eqb Pos.eqb getitem]. rewrite Hts. cbn [mbind result_bind].
    rewrite Hkey. reflexivity. }
  rewrite Heq. split; [|split].
  - intros names. apply mapM_ok.
  - intros names H. apply mapM_ok in H. symmetry.
    exact (Forall2_length _ _ _ H).
  - intros item Hin Hbad. exact (mapM_raise _ lst item Hin Hbad).
Qed.

Lemma recommendations_all_or_nothing_witness :
  recommendations_from "top_gainers"
    (ok200 (JObj [("trending_stocks",
                   JObj [("top_gainers",
                          JList [company "Tata Steel";
                                 JObj [("company_name", JNum 7)]])])]))
  = Ok [JStr "Tata Steel"; JNum 7]
  /\ exists e,
       recommendations_from "top_losers"
         (ok200 (JObj [("trending_stocks",
                        JObj [("top_losers",
                               JList [company "Wipro"; JObj [("name", JStr "ITC")]])])]))
       = Raise e.
Proof.
  split.
  - apply (proj1 (recommendations_all_or_nothing "top_gainers"
             [("trending_stocks",
               JObj [("top_gainers",
                      JList [company "Tata Steel"; JObj [("company_name", JNum 7)]])])]
             _ _ eq_refl eq_refl)).
    repeat constructor.
  - apply (proj2 (proj2 (recommendations_all_or_nothing "top_losers"
             [("trending_stocks",
               JObj [("top_losers",
                      JList [company "Wipro"; JObj [("name", JStr "ITC")]])])]
             _ _ eq_refl eq_refl)) (JObj [("name", JStr "ITC")])).
    + right. left.
    + intros name. discriminate.
Defined.

End RecommenderMore.

(** ** Start-up of a script run *)

Section StartupFacts.
Import Py Startup.

Lemma init_key_keeps (st : gmap string Value) (key k : string) (v : Value) :
  st !! k = Some v -> init_key st key !! k = Some v.
Proof.
  intros H. unfold init_key. destruct (st !! key) eqn:E; [exact H|].
  rewrite lookup_insert_ne; [exact H|]. intros ->. congruence.
Qed.

Lemma init_key_sets (st : gmap string Value) (key : string) :
  init_key st key !! key
  = Some (match st !! key with Some v => v | None => initial_value key end).
Proof.
  unfold init_key. destruct (st !! key) eqn:E; [exact E|].
  apply lookup_insert_eq.
Qed.

Lemma init_key_present (st : gmap string Value) (key : string) :
  is_Some (st !! key) -> init_key st key = st.
Proof. intros [v H]. unfold init_key. rewrite H. reflexivity. Qed.

Lemma init_session_keeps (st : gmap string Value) (k : string) (v : Value) :
  st !! k = Some v -> init_session st !! k = Some v.
Proof.
  intros H. unfold init_session. cbn [foldl].
  repeat apply init_key_keeps. exact H.
Qed.

(** After the loop the three keys are there: a value found is kept, a
    missing one is set to its initial value. *)
Lemma init_session_sets (st : gmap string Value) (key : string) :
  key ∈ ["chat_history"; "live_prices"; "stop_ticker"] ->
  init_session st !! key
  = Some (match st !! key with Some v => v | None => initial_value key end).
Proof.
  intros Hin. unfold init_session. cbn [foldl].
  repeat (apply elem_of_cons in Hin as [->|Hin]).
  - do 2 apply init_key_keeps. apply init_key_sets.
  - apply init_key_keeps. rewrite init_key_sets.
    unfold init_key at 1. destruct (st !! "chat_history") eqn:E; [reflexivity|].
    rewrite lookup_insert_ne by discriminate. reflexivity.
  - rewrite init_key_sets. unfold init_key.
    destruct (st !! "chat_history") eqn:E1, (st !! "live_prices") eqn:E2;
      rewrite ?E2, ?lookup_insert_ne by discriminate; rewrite ?E1, ?E2;
      try reflexivity;
      rewrite ?lookup_insert_ne by discriminate; rewrite ?E2; reflexivity.
  - apply elem_of_nil in Hin. contradiction.
Qed.

Lemma install_defaults_dead (st : gmap string Value) :
  install_defaults (init_session st) = init_session st.
Proof.
  unfold install_defaults.
  rewrite (init_session_sets st "live_prices") by (right; left). reflexivity.
Qed.

(** X18: the start-up of the session state. The initialisation loop keeps
    every value it finds, so the chat history and the prices survive the
    reruns of the script, and it sets a missing key to its initial value;
    running it again changes nothing. After it [live_prices] is always
    there, so the block that would install the five default prices never
    does anything: a new session starts with an empty ticker. *)
Theorem session_start_up (st : gmap string Value) :
  (forall k v, st !! k = Some v -> init_session st !! k = Some v)
  /\ (forall key, key ∈ ["chat_history"; "live_prices"; "stop_ticker"] ->
        st !! key = None -> init_session st !! key = Some (initial_value key))
  /\ init_session (init_session st) = init_session st
  /\ install_defaults (init_session st) = init_session st
  /\ (forall threads, st !! "live_prices" = None ->
        fst (prelude (st, threads)) !! "live_prices" = Some (VDict ∅)).
Proof.
  split; [apply init_session_keeps|]. split; [|split; [|split]].
  - intros key Hin Hnone. rewrite (init_session_sets st key Hin), Hnone.
    reflexivity.
  - assert (Hall : forall key,
              key ∈ ["chat_history"; "live_prices"; "stop_ticker"] ->
              is_Some (init_session st !! key)).
    { intros key Hin. rewrite (init_session_sets st key Hin). eauto. }
    unfold init_session at 1. cbn [foldl].
    rewrite (init_key_present (init_session st) "chat_history")
      by (apply Hall; set_solver).
    rewrite (init_key_present (init_session st) "live_prices")
      by (apply Hall; set_solver).
    rewrite (init_key_present (init_session st) "stop_ticker")
      by (apply Hall; set_solver).
    reflexivity.
  - apply install_defaults_dead.
  - intros threads Hnone. unfold prelude. cbn [fst snd].
    rewrite install_defaults_dead.
    rewrite (init_session_sets _ "live_prices") by (right; left).
    unfold start_live_ticker. cbn [fst snd].
    destruct (st !! "ticker_thread_started"); cbn [fst].
    + rewrite Hnone. reflexivity.
    + rewrite lookup_insert_ne by discriminate. rewrite Hnone. reflexivity.
Qed.

Lemma session_start_up_witness :
  init_session {[ "chat_history" := VList [ {| App.role := "user"; App.content := "hi" |} ] ]}
    !! "chat_history"
  = Some (VList [ {| App.role := "user"; App.content := "hi" |} ])
  /\ fst (prelude (∅, 0)) !! "live_prices" = Some (VDict ∅).
Proof.
  split.
  - apply (proj1 (session_start_up _)). reflexivity.
  - apply (proj2 (proj2 (proj2 (proj2 (session_start_up ∅))))). reflexivity.
Defined.

Lemma prelude_started (s : gmap string Value * nat) :
  is_Some (fst (prelude s) !! "ticker_thread_started").
Proof.
  unfold prelude. cbn [fst]. rewrite install_defaults_dead.
  unfold start_live_ticker.
  destruct (fst s !! "ticker_thread_started") as [v|] eqn:E; cbn [fst].
  - exists v. apply init_session_keeps. exact E.
  - exists (VBool true). apply init_session_keeps, lookup_insert_eq.
Qed.

Lemma prelude_when_started (s : gmap string Value * nat) :
  is_Some (fst s !! "ticker_thread_started") -> snd (prelude s) = snd s.
Proof.
  intros [v H]. unfold prelude, start_live_ticker. rewrite H. reflexivity.
Qed.

Lemma reruns_when_started (n : nat) (s : gmap string Value * nat) :
  is_Some (fst s !! "ticker_thread_started") ->
  snd (Nat.iter n prelude s) = snd s
  /\ is_Some (fst (Nat.iter n prelude s) !! "ticker_thread_started").
Proof.
  intros H. induction n as [|n [IH1 IH2]]; [auto|].
  rewrite Nat.iter_succ. split; [|apply prelude_started].
  rewrite prelude_when_started by exact IH2. exact IH1.
Qed.

(** X19: one ticker thread per session. However often the script runs,
    the number of ticker threads started for the session grows by one in
    the first run when the session has no [ticker_thread_started] mark,
    and not at all otherwise. *)
Theorem ticker_started_once (n : nat) (s : gmap string Value * nat) :
  snd (Nat.iter (S n) prelude s)
  = match fst s !! "ticker_thread_started" with
    | None => S (snd s)
    | Some _ => snd s
    end.
Proof.
  rewrite Nat.iter_succ_r.
  destruct (reruns_when_started n (prelude s) (prelude_started s)) as [-> _].
  unfold prelude, start_live_ticker.
  destruct (fst s !! "ticker_thread_started"); reflexivity.
Qed.

End StartupFacts.

(** ** live_ticker.py: what readers see over a whole run of the loop *)

Section TickerInvariants.
Import Py FetchStock LiveTicker.

Variable random : nat -> Q.

(** The views of one iteration: the old snapshot, or the dict the cycle
    has built. *)
Lemma iteration_views (yf : QuoteSource) (fault : option exn) (c : Config) :
  wf c ->
  forall ev ci, (ev, ci) ∈ iteration random yf fault c ->
    snapshot ci = snapshot c \/ snapshot ci = cycle_snapshot random yf c.
Proof.
  intros Hwf ev ci Hin.
  destruct (new_dict_facts c Hwf) as (_ & Hlive & Hsnap & _).
  destruct (for_symbols_frame random yf (length (heap c)) symbols (new_dict c))
    as [Hfs Hf1].
  rewrite Forall_forall in Hfs.
  rewrite iteration_unfold in Hin. cbv zeta in Hin.
  apply elem_of_cons in Hin as [Heq|Hin].
  { injection Heq as -> ->. left. exact Hsnap. }
  apply elem_of_app in Hin as [Hin|Hin].
  { left. pose proof (Hfs _ Hin) as Hf. cbn [snd] in Hf.
    rewrite (frame_snapshot _ _ _ Hf Hlive). exact Hsnap. }
  destruct fault.
  - apply list_elem_of_singleton in Hin.
    apply (f_equal snd) in Hin. cbn [snd] in Hin. subst ci.
    left. rewrite (frame_snapshot _ _ _ Hf1 Hlive). exact Hsnap.
  - right.
    apply elem_of_cons in Hin as [Heq|Hin]; [injection Heq as -> ->; reflexivity|].
    apply list_elem_of_singleton in Hin. injection Hin as -> ->. reflexivity.
Qed.

(** Where one iteration leaves the loop. *)
Lemma iteration_final (yf : QuoteSource) (fault : option exn) (c : Config) :
  wf c ->
  let c' := final c ((CheckStop false, c) :: iteration random yf fault c) in
  wf c'
  /\ (snapshot c' = snapshot c \/ snapshot c' = cycle_snapshot random yf c).
Proof.
  intros Hwf c'.
  destruct (new_dict_facts c Hwf) as (_ & Hlive & Hsnap & _).
  destruct (for_symbols_frame random yf (length (heap c)) symbols (new_dict c))
    as [_ Hf1].
  assert (Hlen : length (heap (new_dict c)) = S (length (heap c))).
  { unfold new_dict. cbn. rewrite length_app. cbn. lia. }
  unfold c'. rewrite final_cons, iteration_unfold, final_cons, final_app.
  destruct Hf1 as (Hl & Hh & Hrest). unfold wf in *.
  destruct fault; cbn [final last].
  - split.
    + rewrite Hl, Hh, Hlen. cbn. lia.
    + left. rewrite (frame_snapshot _ _ _ (conj Hl (conj Hh Hrest)) Hlive).
      exact Hsnap.
  - split.
    + unfold publish. cbn [heap live_prices]. rewrite Hh, Hlen. lia.
    + right. reflexivity.
Qed.

Lemma cycle_snapshot_dom (yf : QuoteSource) (c : Config) :
  wf c -> dom (cycle_snapshot random yf c) = universe.
Proof.
  intros Hwf. destruct (new_dict_facts c Hwf) as (H0 & _).
  destruct (for_symbols_dom random yf (length (heap c)) symbols (new_dict c) ∅ H0)
    as (m & Hm & Hdom).
  unfold cycle_snapshot. rewrite Hm. cbn. rewrite Hdom, clean_symbols.
  unfold universe. set_solver.
Qed.

(** X20: what a reader can ever see. Over a run of the loop of any
    length, whatever the quote source, the faults and the stop flag do,
    the snapshot visible at any step is either the one that was there
    when the loop started or one with exactly the seven names as keys;
    if the first was of that kind, every one is. No reader ever sees a
    dict that is being filled. *)
Theorem run_snapshots_complete (stop_ticker : nat -> bool)
    (yfs : nat -> QuoteSource) (faults : nat -> option exn)
    (fuel n : nat) (c : Config) :
  wf c ->
  (forall ev ci,
     (ev, ci) ∈ fst (update_live_prices random stop_ticker yfs faults fuel n c) ->
     snapshot ci = snapshot c \/ dom (snapshot ci) = universe)
  /\ (dom (snapshot c) = universe ->
      forall ev ci,
        (ev, ci) ∈ fst (update_live_prices random stop_ticker yfs faults fuel n c) ->
        dom (snapshot ci) = universe).
Proof.
  intros Hwf.
  assert (Hmain : forall ev ci,
    (ev, ci) ∈ fst (update_live_prices random stop_ticker yfs faults fuel n c) ->
    snapshot ci = snapshot c \/ dom (snapshot ci) = universe).
  { revert n c Hwf. induction fuel as [|fuel IH]; intros n c Hwf ev ci Hin;
      cbn [update_live_prices] in Hin.
    - apply elem_of_nil in Hin. contradiction.
    - destruct (stop_ticker n).
      + apply list_elem_of_singleton in Hin. injection Hin as -> ->. auto.
      + destruct (iteration_final (yfs n) (faults n) c Hwf) as [Hwf' Hsnap'].
        specialize (IH (S n) _ Hwf' ev ci).
        destruct (update_live_prices random stop_ticker yfs faults fuel (S n) _)
          as [rest st].
        cbn [fst] in *. apply elem_of_app in Hin as [Hin|Hin].
        * apply elem_of_cons in Hin as [Heq|Hin];
            [injection Heq as -> ->; auto|].
          destruct (iteration_views (yfs n) (faults n) c Hwf ev ci Hin)
            as [H|H]; [auto|].
          right. rewrite H. apply cycle_snapshot_dom, Hwf.
        * destruct (IH Hin) as [H|H]; [|auto].
          rewrite H. destruct Hsnap' as [H'|H']; [auto|].
          right. rewrite H'. apply cycle_snapshot_dom, Hwf. }
  split; [exact Hmain|].
  intros Hdom ev ci Hin. destruct (Hmain ev ci Hin) as [H|H]; [|exact H].
  rewrite H. exact Hdom.
Qed.

End TickerInvariants.

Section TickerPositivity.
Import Py FetchStock LiveTicker.

Variable random : nat -> Q.
Hypothesis random_range : forall n, (0 <= random n /\ random n < 1)%Q.

Lemma cycle_snapshot_positive (yf : QuoteSource) (c : Config) :
  wf c -> positive (snapshot c) ->
  (forall s info pr,
     yf s = Ok info -> regularMarketPrice info = Some pr -> (0 < pr)%Q) ->
  positive (cycle_snapshot random yf c).
Proof.
  intros Hwf Hold Hsrc.
  destruct (cycle_dict random random_range yf c Hwf) as (m & Hm & _ & Hall).
  unfold cycle_snapshot. rewrite Hm. cbn. intros k q Hk.
  destruct (Hall k q Hk) as (s & _ & _ & Hst).
  eapply stored_positive; [exact Hold|apply Hsrc|exact Hst].
Qed.

(** X21: positive prices are an invariant of the loop. When the snapshot
    the loop starts from has positive prices only and every price the
    quote source reports in any cycle is positive, every snapshot visible
    at any step of a run of any length has positive prices only, whatever
    fails in between. *)
Theorem run_prices_positive (stop_ticker : nat -> bool)
    (yfs : nat -> QuoteSource) (faults : nat -> option exn)
    (fuel n : nat) (c : Config) :
  wf c -> positive (snapshot c) ->
  (forall k s info pr,
     yfs k s = Ok info -> regularMarketPrice info = Some pr -> (0 < pr)%Q) ->
  forall ev ci,
    (ev, ci) ∈ fst (update_live_prices random stop_ticker yfs faults fuel n c) ->
    positive (snapshot ci).
Proof.
  intros Hwf Hpos Hsrc. revert n c Hwf Hpos.
  induction fuel as [|fuel IH]; intros n c Hwf Hpos ev ci Hin;
    cbn [update_live_prices] in Hin.
  - apply elem_of_nil in Hin. contradiction.
  - destruct (stop_ticker n).
    + apply list_elem_of_singleton in Hin. injection Hin as -> ->. exact Hpos.
    + pose proof (cycle_snapshot_positive (yfs n) c Hwf Hpos (Hsrc n)) as Hnew.
      destruct (iteration_final random (yfs n) (faults n) c Hwf) as [Hwf' Hsnap'].
      assert (Hpos' : positive (snapshot (final c ((CheckStop false, c)
                        :: iteration random (yfs n) (faults n) c)))).
      { destruct Hsnap' as [-> | ->]; assumption. }
      specialize (IH (S n) _ Hwf' Hpos' ev ci).
      destruct (update_live_prices random stop_ticker yfs faults fuel (S n) _)
        as [rest st].
      cbn [fst] in *. apply elem_of_app in Hin as [Hin|Hin]; [|auto].
      apply elem_of_cons in Hin as [Heq|Hin];
        [injection Heq as -> ->; exact Hpos|].
      destruct (iteration_views random (yfs n) (faults n) c Hwf ev ci Hin)
        as [-> | ->]; assumption.
Qed.

End TickerPositivity.

Section TickerPositivityRun.
Import Py FetchStock LiveTicker.

Lemma final_in (c : Config) (tr : Trace) :
  tr <> [] -> exists ev, (ev, final c tr) ∈ tr.
Proof.
  intros Hne. unfold final. destruct (last tr) as [[ev c']|] eqn:E.
  - exists ev. apply list_elem_of_lookup. rewrite last_lookup in E. eauto.
  - apply last_None in E. contradiction.
Qed.

Lemma run_snapshots_complete_witness :
  let c := final init (fst (update_live_prices half (stop_at 2) (fun _ => down)
                              (fun _ => None) 3 0 init)) in
  snapshot c = snapshot init \/ dom (snapshot c) = universe.
Proof.
  assert (Hwf : wf init) by (unfold wf; simpl; lia).
  destruct (final_in init (fst (update_live_prices half (stop_at 2)
                                  (fun _ => down) (fun _ => None) 3 0 init)))
    as [ev Hin]; [discriminate|].
  exact (proj1 (run_snapshots_complete half (stop_at 2) (fun _ => down)
                  (fun _ => None) 3 0 init Hwf) ev _ Hin).
Defined.

Lemma shown_at_start_positive : positive (snapshot shown_at_start).
Proof.
  intros k q H. unfold snapshot, shown_at_start in H. cbn in H.
  apply lookup_insert_Some in H as [[_ <-]|[_ H]]; [reflexivity|].
  apply lookup_singleton_Some in H as [_ <-]. reflexivity.
Qed.

Lemma mixed_reports_positive (s : string) (info : Info) (pr : Q) :
  mixed s = Ok info -> regularMarketPrice info = Some pr -> (0 < pr)%Q.
Proof.
  unfold mixed. intros H1 H2.
  destruct (String.eqb s "TCS.NS").
  - injection H1 as <-. discriminate.
  - destruct (String.eqb s "INFY.NS"); [|discriminate].
    injection H1 as <-. injection H2 as <-. reflexivity.
Qed.

(** A run from a snapshot that holds prices for RELIANCE and TCS, against
    a source that raises, has no data and reports a price: the published
    quotes are a placeholder, a quote synthesised from the prior TCS price
    and a reported price, and all of them are positive. *)
Lemma run_prices_positive_witness :
  positive (snapshot
              (final shown_at_start
                 (fst (update_live_prices half (stop_at 2) (fun _ => mixed)
                         (fun k => if Nat.eqb k 0 then Some RuntimeError else None)
                         3 0 shown_at_start))))
  /\ (exists q,
        snapshot
          (final shown_at_start
             (fst (update_live_prices half (stop_at 2) (fun _ => mixed)
                     (fun k => if Nat.eqb k 0 then Some RuntimeError else None)
                     3 0 shown_at_start))) !! "INFY" = Some q
        /\ (price q == 107)%Q).
Proof.
  split.
  - destruct (final_in shown_at_start
                (fst (update_live_prices half (stop_at 2) (fun _ => mixed)
                        (fun k => if Nat.eqb k 0 then Some RuntimeError else None)
                        3 0 shown_at_start)))
      as [ev Hin]; [discriminate|].
    apply (run_prices_positive half half_range (stop_at 2) (fun _ => mixed)
             (fun k => if Nat.eqb k 0 then Some RuntimeError else None)
             3 0 shown_at_start)
      with (ev := ev)
           (ci := final shown_at_start
                    (fst (update_live_prices half (stop_at 2) (fun _ => mixed)
                            (fun k => if Nat.eqb k 0 then Some RuntimeError else None)
                            3 0 shown_at_start))).
    + unfold wf. simpl. lia.
    + exact shown_at_start_positive.
    + intros k. apply mixed_reports_positive.
    + exact Hin.
  - eexists. split; [vm_compute; reflexivity|reflexivity].
Defined.

End TickerPositivityRun.
